(** * ExponentialSpringForce: contact force law and sliding-state model

    A shallow embedding of [Simbody/src/ExponentialSpringForce.cpp].

    SimTK's [Real] is read as a mathematical real number: every arithmetic
    operation is exact and total, and the comparisons are those of the
    ordered field.  Rounding is outside this model.  So are infinities and
    NaN, with two provisions.  Where the source divides, the model's
    division is total; a statement that rests on a quotient carries the
    hypothesis that the divisor is not zero.  And the normal force, whose
    exponential overflows for a deep enough penetration, is modelled a
    second time over doubles with infinities and NaN ([Double],
    [normalForceD]).

    The subsystem's [State] is modelled as a record holding exactly the
    entries that [realizeSubsystemTopologyImpl] allocates (the two friction
    coefficients, the auto-update spring zero and its update value, the
    continuous state [z] and its derivative, the data cache entry), together
    with the station kinematics supplied by the matter subsystem. *)

From Stdlib Require Import Reals Lra List Bool.
Import ListNotations.
Open Scope R_scope.

Abbreviation Real := R.

(* ------------------------------------------------------------------------- *)
(** ** Vec3 *)

Record Vec3 : Type := mkVec3 { e0 : Real; e1 : Real; e2 : Real }.

(** [Vec3] assigned from a scalar: every element takes that value. *)
Definition vfill (s : Real) : Vec3 := mkVec3 s s s.

Definition vadd (a b : Vec3) : Vec3 :=
  mkVec3 (e0 a + e0 b) (e1 a + e1 b) (e2 a + e2 b).

Definition vsub (a b : Vec3) : Vec3 :=
  mkVec3 (e0 a - e0 b) (e1 a - e1 b) (e2 a - e2 b).

(** scalar * vector (and vector * scalar, [v *= s]) *)
Definition vscale (s : Real) (a : Vec3) : Vec3 :=
  mkVec3 (s * e0 a) (s * e1 a) (s * e2 a).

(** vector / scalar.  At [s = 0] the source yields infinities or NaN; the
    total division used here does not model that case. *)
Definition vdiv (a : Vec3) (s : Real) : Vec3 :=
  mkVec3 (e0 a / s) (e1 a / s) (e2 a / s).

(** [v[0] = s], [v[1] = s], [v[2] = s] *)
Definition vset0 (a : Vec3) (s : Real) : Vec3 := mkVec3 s (e1 a) (e2 a).
Definition vset1 (a : Vec3) (s : Real) : Vec3 := mkVec3 (e0 a) s (e2 a).
Definition vset2 (a : Vec3) (s : Real) : Vec3 := mkVec3 (e0 a) (e1 a) s.

Definition normSqr (a : Vec3) : Real :=
  e0 a * e0 a + e1 a * e1 a + e2 a * e2 a.

Definition norm (a : Vec3) : Real := sqrt (normSqr a).

Definition normalize (a : Vec3) : Vec3 := vdiv a (norm a).

Declare Scope vec_scope.
Delimit Scope vec_scope with V.
Bind Scope vec_scope with Vec3.
Infix "+" := vadd : vec_scope.
Infix "-" := vsub : vec_scope.

(* ------------------------------------------------------------------------- *)
(** ** Collaborator types *)

(** [Transform] is declared in SimTKcommon; only the three methods this file
    calls are kept, as an interface. *)
Record Transform : Type := mkTransform {
  shiftBaseStationToFrame : Vec3 -> Vec3;
  xformBaseVecToFrame : Vec3 -> Vec3;
  xformFrameVecToBase : Vec3 -> Vec3
}.

(** [ExponentialSpringParameters] is declared in its own header; this file
    only reads it through the accessors below. *)
Record ExponentialSpringParameters : Type := mkParams {
  d0 : Real; d1 : Real; d2 : Real;
  getNormalViscosity : Real;
  getElasticity : Real;
  getViscosity : Real;
  getSlidingTimeConstant : Real;
  getSettleVelocity : Real
}.

Definition getShapeParameters (params : ExponentialSpringParameters)
  : Real * Real * Real := (d0 params, d1 params, d2 params).

(** [enum Transition] *)
Inductive Transition : Type := Hold | Decay | Rise.

(* ------------------------------------------------------------------------- *)
(** ** struct ExponentialSpringData *)

Module ExponentialSpringData.
Record t : Type := mk {
  p_G : Vec3;
  v_G : Vec3;
  p : Vec3;
  v : Vec3;
  pz : Real;
  vz : Real;
  pxy : Vec3;
  vxy : Vec3;
  fzElas : Real;
  fzDamp : Real;
  fz : Real;
  mu : Real;
  fxyLimit : Real;
  fricElas : Vec3;
  fricDamp : Vec3;
  fric : Vec3;
  fxy : Real;
  limitReached : bool;
  f : Vec3;
  f_G : Vec3
}.
End ExponentialSpringData.
Module ESD := ExponentialSpringData.

(* ------------------------------------------------------------------------- *)
(** ** State *)

(** The part of a SimTK [State] this subsystem owns or reads. *)
Record State : Type := mkState {
  (** discrete variable [indexMus] *)
  st_mus : Real;
  (** discrete variable [indexMuk] *)
  st_muk : Real;
  (** auto-update discrete variable [indexSprZero] *)
  st_sprZero : Vec3;
  (** update value [indexSprZeroInCache] of the spring zero *)
  st_sprZeroInCache : Vec3;
  (** whether the update value has been marked realized *)
  st_sprZeroCacheRealized : bool;
  (** continuous state [z[indexZ]] *)
  st_z : Real;
  (** its derivative [zdot[indexZ]], a cache entry *)
  st_zDot : Real;
  (** cache entry [indexData] *)
  st_data : ESD.t;
  (** [body.findStationLocationInGround(state, station)] *)
  findStationLocationInGround : Vec3 -> Vec3;
  (** [body.findStationVelocityInGround(state, station)] *)
  findStationVelocityInGround : Vec3 -> Vec3;
  (** [body.findStationAccelerationInGround(state, station)] *)
  findStationAccelerationInGround : Vec3 -> Vec3
}.

Definition set_mus (st : State) (x : Real) : State :=
  mkState x (st_muk st) (st_sprZero st) (st_sprZeroInCache st)
    (st_sprZeroCacheRealized st) (st_z st) (st_zDot st) (st_data st)
    (findStationLocationInGround st) (findStationVelocityInGround st)
    (findStationAccelerationInGround st).

Definition set_muk (st : State) (x : Real) : State :=
  mkState (st_mus st) x (st_sprZero st) (st_sprZeroInCache st)
    (st_sprZeroCacheRealized st) (st_z st) (st_zDot st) (st_data st)
    (findStationLocationInGround st) (findStationVelocityInGround st)
    (findStationAccelerationInGround st).

Definition set_sprZero (st : State) (x : Vec3) : State :=
  mkState (st_mus st) (st_muk st) x (st_sprZeroInCache st)
    (st_sprZeroCacheRealized st) (st_z st) (st_zDot st) (st_data st)
    (findStationLocationInGround st) (findStationVelocityInGround st)
    (findStationAccelerationInGround st).

Definition set_sprZeroInCache (st : State) (x : Vec3) : State :=
  mkState (st_mus st) (st_muk st) (st_sprZero st) x
    (st_sprZeroCacheRealized st) (st_z st) (st_zDot st) (st_data st)
    (findStationLocationInGround st) (findStationVelocityInGround st)
    (findStationAccelerationInGround st).

Definition set_sprZeroCacheRealized (st : State) (b : bool) : State :=
  mkState (st_mus st) (st_muk st) (st_sprZero st) (st_sprZeroInCache st)
    b (st_z st) (st_zDot st) (st_data st)
    (findStationLocationInGround st) (findStationVelocityInGround st)
    (findStationAccelerationInGround st).

Definition set_z (st : State) (x : Real) : State :=
  mkState (st_mus st) (st_muk st) (st_sprZero st) (st_sprZeroInCache st)
    (st_sprZeroCacheRealized st) x (st_zDot st) (st_data st)
    (findStationLocationInGround st) (findStationVelocityInGround st)
    (findStationAccelerationInGround st).

Definition set_zDot (st : State) (x : Real) : State :=
  mkState (st_mus st) (st_muk st) (st_sprZero st) (st_sprZeroInCache st)
    (st_sprZeroCacheRealized st) (st_z st) x (st_data st)
    (findStationLocationInGround st) (findStationVelocityInGround st)
    (findStationAccelerationInGround st).

Definition set_data (st : State) (x : ESD.t) : State :=
  mkState (st_mus st) (st_muk st) (st_sprZero st) (st_sprZeroInCache st)
    (st_sprZeroCacheRealized st) (st_z st) (st_zDot st) x
    (findStationLocationInGround st) (findStationVelocityInGround st)
    (findStationAccelerationInGround st).

(* ------------------------------------------------------------------------- *)
(** ** class ExponentialSpringForceImpl: data members *)

Record ExponentialSpringForceImpl : Type := mkImpl {
  params : ExponentialSpringParameters;
  defaultData : ESD.t;
  contactPlane : Transform;
  station : Vec3;
  defaultMus : Real;
  defaultMuk : Real;
  defaultSprZero : Vec3
}.

(** The constructor.  [defaultData] is default-constructed in the source, so
    its content is not determined there; it is an argument here. *)
Definition newExponentialSpringForceImpl (floor : Transform) (station : Vec3)
    (mus muk : Real) (params : ExponentialSpringParameters)
    (defaultData : ESD.t) : ExponentialSpringForceImpl :=
  let defaultMus := mus in
  let defaultMuk := muk in
  let defaultMus := if Rlt_dec defaultMus 0 then 0 else defaultMus in
  let defaultMuk := if Rlt_dec defaultMuk 0 then 0 else defaultMuk in
  let defaultMuk :=
    if Rgt_dec defaultMuk defaultMus then defaultMus else defaultMuk in
  mkImpl params defaultData floor station defaultMus defaultMuk (vfill 0).

(* ------------------------------------------------------------------------- *)
(** ** Accessors *)

Definition getData (state : State) : ESD.t := st_data state.
Definition getSliding (state : State) : Real := st_z state.
Definition getSlidingDotInCache (state : State) : Real := st_zDot state.
Definition updSlidingDotInCache (state : State) (slidingDot : Real) : State :=
  set_zDot state slidingDot.
Definition getSprZero (state : State) : Vec3 := st_sprZero state.
Definition getSprZeroInCache (state : State) : Vec3 := st_sprZeroInCache state.
Definition updSprZeroInCache (state : State) (setpoint : Vec3) : State :=
  set_sprZeroInCache state setpoint.
Definition markCacheValueRealized (state : State) : State :=
  set_sprZeroCacheRealized state true.
Definition getMuStatic (state : State) : Real := st_mus state.
Definition getMuKinetic (state : State) : Real := st_muk state.

Definition setMuStatic (state : State) (mus : Real) : State :=
  let mus := if Rlt_dec mus 0 then 0 else mus in
  let state := set_mus state mus in
  let muk := getMuKinetic state in
  if Rgt_dec muk mus then
    let muk := mus in
    set_muk state muk
  else state.

Definition setMuKinetic (state : State) (muk : Real) : State :=
  let muk := if Rlt_dec muk 0 then 0 else muk in
  let state := set_muk state muk in
  let mus := getMuStatic state in
  if Rgt_dec muk mus then set_mus state muk else state.

(** [ClampAboveZero]: clamp a value between zero and a maximum value. *)
Definition ClampAboveZero (value max : Real) : Real :=
  if Rgt_dec value max then max
  else if Rlt_dec value 0 then 0
  else value.

(** [realizeSubsystemTopologyImpl]: allocate the state variables and the data
    cache.  Entries the method does not allocate are left as they were. *)
Definition realizeSubsystemTopologyImpl (impl : ExponentialSpringForceImpl)
    (state : State) : State :=
  let state := set_mus state (defaultMus impl) in
  let state := set_muk state (defaultMuk impl) in
  let state := set_sprZero state (defaultSprZero impl) in
  let state := set_sprZeroCacheRealized state false in
  let initialValue := 1 in
  let state := set_z state initialValue in
  set_data state (defaultData impl).

(** [resetSprZero]: project the body station onto the contact plane. *)
Definition resetSprZero (impl : ExponentialSpringForceImpl) (state : State)
  : State :=
  let p_G := findStationLocationInGround state (station impl) in
  let p := shiftBaseStationToFrame (contactPlane impl) p_G in
  let p := vset2 p 0 in
  set_sprZero state p.

(* ------------------------------------------------------------------------- *)
(** ** Realization of the Dynamics and Acceleration stages *)

Definition Rltb (a b : Real) : bool := if Rlt_dec a b then true else false.
Definition Rgtb (a b : Real) : bool := if Rgt_dec a b then true else false.

Section Realize.

(** [SimTK::SignificantReal], the numerical-noise threshold declared in
    SimTKcommon. *)
Variable SignificantReal : Real.

(** The bounding of the sliding state on read:
    [if(sliding < 0.0) sliding = 0.0; else if(sliding > 1.0) sliding = 1.0;] *)
Definition boundSliding (sliding : Real) : Real :=
  if Rltb sliding 0 then 0
  else if Rgtb sliding 1 then 1
  else sliding.

(** Sliding = 1.0: the damping force capped at the friction limit
    (local [fricLimit]); the argument is the local [fricDampSpr]. *)
Definition frictionLimit (fricDampSpr : Vec3) (fxyLimit : Real) : Vec3 :=
  if Rltb fxyLimit SignificantReal then vfill 0
  else
    let fricLimit := fricDampSpr in
    if Rgtb (norm fricLimit) fxyLimit
    then vscale fxyLimit (normalize fricLimit)
    else fricLimit.

(** Sliding = 0.0: the linear spring, scaled back to the friction limit.
    Returns [limitReached] and the locals [fricElasSpr], [fricDampSpr] and
    [fricSpr] as they stand after the [if(fxySpr > data.fxyLimit)] block. *)
Definition frictionSpring (kpFric : Real) (pxy p0 fricDampSpr : Vec3)
    (fxyLimit : Real) : bool * Vec3 * Vec3 * Vec3 :=
  let limitReached := false in
  let fricElasSpr := vscale (- kpFric) (pxy - p0) in
  let fricSpr := (fricElasSpr + fricDampSpr)%V in
  let fxySpr := norm fricSpr in
  if Rgtb fxySpr fxyLimit then
    let limitReached := true in
    let scale := fxyLimit / fxySpr in
    let fricElasSpr := vscale scale fricElasSpr in
    let fricDampSpr := vscale scale fricDampSpr in
    let fricSpr := (fricElasSpr + fricDampSpr)%V in
    (limitReached, fricElasSpr, fricDampSpr, fricSpr)
  else (limitReached, fricElasSpr, fricDampSpr, fricSpr).

(** [realizeSubsystemDynamicsImpl]: compute the forces modeled by this
    subsystem.  The accumulation of [data.f_G] into the rigid-body forces of
    the multibody system is done by the matter subsystem and leaves no trace
    in the entries modelled here. *)
Definition realizeSubsystemDynamicsImpl (impl : ExponentialSpringForceImpl)
    (state : State) : State :=
  (* Get position and velocity of the spring station in Ground *)
  let p_G := findStationLocationInGround state (station impl) in
  let v_G := findStationVelocityInGround state (station impl) in
  (* Transform the position and velocity into the contact frame. *)
  let p := shiftBaseStationToFrame (contactPlane impl) p_G in
  let v := xformBaseVecToFrame (contactPlane impl) v_G in
  let v := if Rltb (Rabs (e0 v)) SignificantReal then vset0 v 0 else v in
  let v := if Rltb (Rabs (e1 v)) SignificantReal then vset1 v 0 else v in
  (* Resolve into normal and tangential parts *)
  let pz := e2 p in
  let vz := e2 v in
  let pxy := vset2 p 0 in
  let vxy := vset2 v 0 in
  (* Get all the parameters upfront *)
  let '(d0, d1, d2) := getShapeParameters (params impl) in
  let kvNorm := getNormalViscosity (params impl) in
  let kpFric := getElasticity (params impl) in
  let kvFric := getViscosity (params impl) in
  (* Normal force *)
  let fzElas := d1 * exp (- d2 * (pz - d0)) in
  let fzDamp := - kvNorm * vz * fzElas in
  let fz := fzElas + fzDamp in
  let fz := ClampAboveZero fz 100000 in
  (* Friction *)
  let sliding := boundSliding (st_z state) in
  let mus := getMuStatic state in
  let muk := getMuKinetic state in
  let mu := mus - sliding * (mus - muk) in
  let fxyLimit := mu * fz in
  let p0 := getSprZero state in
  let fricDampSpr := vscale (- kvFric) vxy in
  let fricLimit := frictionLimit fricDampSpr fxyLimit in
  let '(limitReached, fricElasSpr, fricDampSpr, fricSpr) :=
    frictionSpring kpFric pxy p0 fricDampSpr fxyLimit in
  (* Blend the two extremes according to the Sliding state *)
  let fricElas := vscale (1 - sliding) fricElasSpr in
  let fricDamp :=
    (fricDampSpr + vscale sliding (fricLimit - fricDampSpr))%V in
  let fric := (fricElas + fricDamp)%V in
  let fxy := norm fric in
  (* Update the spring zero *)
  let p0 := (pxy + vdiv fricElas kpFric)%V in
  let p0 := vset2 p0 0 in
  let state := updSprZeroInCache state p0 in
  let state := markCacheValueRealized state in
  (* Total spring force expressed in the frame of the contact plane *)
  let f := fric in
  let f := vset2 f fz in
  (* Transform the spring forces back to the Ground frame *)
  let f_G := xformFrameVecToBase (contactPlane impl) f in
  set_data state
    (ESD.mk p_G v_G p v pz vz pxy vxy fzElas fzDamp fz mu fxyLimit
       fricElas fricDamp fric fxy limitReached f f_G).

(** [realizeSubsystemAccelerationImpl]: compute and update the derivative of
    the continuous state. *)
Definition realizeSubsystemAccelerationImpl (impl : ExponentialSpringForceImpl)
    (state : State) : State :=
  let kTau := 1 / getSlidingTimeConstant (params impl) in
  let vSettle := getSettleVelocity (params impl) in
  let sliding := st_z state in
  let data := getData state in
  let slidingDot := 0 in
  let a := findStationAccelerationInGround state (station impl) in
  let aMag := norm a in
  let slidingDot :=
    if negb (ESD.limitReached data)
       && Rltb (norm (ESD.vxy data)) 0.001
       && Rltb (Rabs (ESD.vz data)) 0.001
    then - kTau * sliding else slidingDot in
  let slidingDot :=
    if ESD.limitReached data || Rltb (ESD.fz data) SignificantReal
    then kTau * (1 - sliding) else slidingDot in
  updSlidingDotInCache state slidingDot.

(** [calcPotentialEnergy]: the potential energy stored in the spring. *)
Definition calcPotentialEnergy (impl : ExponentialSpringForceImpl)
    (state : State) : Real :=
  let data := getData state in
  let '(d0, d1, d2) := getShapeParameters (params impl) in
  let energy := ESD.fzElas data / d2 in
  let p0Cache := getSprZeroInCache state in
  let r := (ESD.pxy data - p0Cache)%V in
  let energy := energy + 0.5 * getElasticity (params impl) * norm r * norm r in
  energy.

End Realize.

(* ------------------------------------------------------------------------- *)
(** ** The integrator's side of the contract *)

(** Modelled from the spec: the auto-update discipline of the spring zero,
    which the integrator (not part of this file) carries out at a step
    boundary.  "It is read at step start, and the value written is only
    visible starting the next step": a realized update value replaces the
    state variable, and the update value is invalidated. *)
Definition autoUpdateDiscreteVariables (state : State) : State :=
  if st_sprZeroCacheRealized state then
    set_sprZeroCacheRealized
      (set_sprZero state (st_sprZeroInCache state)) false
  else state.

(** Modelled from the spec: one step of the external integrator.  It swaps
    the auto-update variable, and supplies a new value of the continuous
    state and new station kinematics, on which this file puts no
    constraint. *)
Definition advance (z : Real) (loc vel acc : Vec3 -> Vec3) (state : State)
  : State :=
  let state := autoUpdateDiscreteVariables state in
  mkState (st_mus state) (st_muk state) (st_sprZero state)
    (st_sprZeroInCache state) (st_sprZeroCacheRealized state)
    z (st_zDot state) (st_data state) loc vel acc.

(** The calls a client or the integrator can make on a realized subsystem. *)
Inductive Call : Type :=
| CallSetMuStatic (mus : Real)
| CallSetMuKinetic (muk : Real)
| CallResetSpringZero
| CallRealizeDynamics
| CallRealizeAcceleration
| CallAdvance (z : Real) (loc vel acc : Vec3 -> Vec3).

Section Calls.

Variable SignificantReal : Real.
Variable impl : ExponentialSpringForceImpl.

Definition call (state : State) (c : Call) : State :=
  match c with
  | CallSetMuStatic mus => setMuStatic state mus
  | CallSetMuKinetic muk => setMuKinetic state muk
  | CallResetSpringZero => resetSprZero impl state
  | CallRealizeDynamics =>
      realizeSubsystemDynamicsImpl SignificantReal impl state
  | CallRealizeAcceleration =>
      realizeSubsystemAccelerationImpl SignificantReal impl state
  | CallAdvance z loc vel acc => advance z loc vel acc state
  end.

Definition calls (state : State) (cs : list Call) : State :=
  fold_left call cs state.

End Calls.

(** The data-model invariants of the coefficients and of the spring zero. *)
Definition CoefficientsInv (state : State) : Prop :=
  0 <= getMuKinetic state /\ getMuKinetic state <= getMuStatic state.

Definition inPlane (a : Vec3) : Prop := e2 a = 0.

Definition SprZeroInv (state : State) : Prop :=
  inPlane (getSprZero state) /\
  (st_sprZeroCacheRealized state = true -> inPlane (getSprZeroInCache state)).

Definition StateInv (state : State) : Prop :=
  CoefficientsInv state /\ SprZeroInv state.

Definition ImplInv (impl : ExponentialSpringForceImpl) : Prop :=
  0 <= defaultMuk impl /\ defaultMuk impl <= defaultMus impl /\
  inPlane (defaultSprZero impl).

(** The spec's [clamp(x, lo, hi)]. *)
Definition clamp (x lo hi : Real) : Real := Rmax lo (Rmin x hi).

(* ------------------------------------------------------------------------- *)
(** ** Guarded divisions *)

Section Guarded.

Variable SignificantReal : Real.

(** [normalize] with its division guarded: dividing by a length below the
    noise threshold is reported as [None]. *)
Definition normalizeGuarded (a : Vec3) : option Vec3 :=
  if Rltb (norm a) SignificantReal then None else Some (vdiv a (norm a)).

(** [frictionLimit], statement for statement, with [normalizeGuarded] in the
    place of [normalize]. *)
Definition frictionLimitGuarded (fricDampSpr : Vec3) (fxyLimit : Real)
  : option Vec3 :=
  if Rltb fxyLimit SignificantReal then Some (vfill 0)
  else
    let fricLimit := fricDampSpr in
    if Rgtb (norm fricLimit) fxyLimit
    then match normalizeGuarded fricLimit with
         | Some n => Some (vscale fxyLimit n)
         | None => None
         end
    else Some fricLimit.

End Guarded.

(* ------------------------------------------------------------------------- *)
(** ** A concrete contact point *)

Module Example.

(** A noise threshold of the order of SimTK's (about 1.7e-14 for doubles). *)
Definition SignificantReal : Real := / 100000000000000.

(** The contact plane is the ground frame. *)
Definition floor : Transform :=
  mkTransform (fun s => s) (fun w => w) (fun w => w).

Definition params : ExponentialSpringParameters :=
  mkParams 0 1 1 1 1 1 1 (/ 100).

Definition zeroData : ESD.t :=
  ESD.mk (vfill 0) (vfill 0) (vfill 0) (vfill 0) 0 0 (vfill 0) (vfill 0)
    0 0 0 0 0 (vfill 0) (vfill 0) (vfill 0) 0 false (vfill 0) (vfill 0).

(** Static and kinetic coefficients both 1/2. *)
Definition impl : ExponentialSpringForceImpl :=
  newExponentialSpringForceImpl floor (vfill 0) (1 / 2) (1 / 2) params
    zeroData.

(** A state before topology realization, with the station at [loc] moving
    with velocity [vel]. *)
Definition blank (loc vel : Vec3) : State :=
  mkState 0 0 (vfill 0) (vfill 0) false 0 0 zeroData
    (fun _ => loc) (fun _ => vel) (fun _ => vfill 0).

(** Freshly realized topology; the station rests on the plane at the origin. *)
Definition atRest : State :=
  realizeSubsystemTopologyImpl impl (blank (vfill 0) (vfill 0)).

(** Freshly realized topology; the station rests on the plane one unit away
    from the spring zero. *)
Definition displaced : State :=
  realizeSubsystemTopologyImpl impl (blank (mkVec3 1 0 0) (vfill 0)).

(** Freshly realized topology; the station leaves the plane with a normal
    velocity below the noise threshold. *)
Definition creeping : State :=
  realizeSubsystemTopologyImpl impl
    (blank (vfill 0) (mkVec3 0 0 (/ 1000000000000000))).

End Example.

(* ------------------------------------------------------------------------- *)
(** ** Remaining members of ExponentialSpringForceImpl *)

(** [cloneImpl]: a new implementation built by the constructor from the
    members of this one.  As in the constructor, the default-constructed
    [defaultData] of the clone is an argument. *)
Definition cloneImpl (impl : ExponentialSpringForceImpl) (defaultData : ESD.t)
  : ExponentialSpringForceImpl :=
  newExponentialSpringForceImpl (contactPlane impl) (station impl)
    (defaultMus impl) (defaultMuk impl) (params impl) defaultData.

(** [Sigma]: a function that transitions smoothly from 0.0 to 1.0 or from
    1.0 to 0.0.  At [tau = 0] the source divides by zero; the total division
    used here does not model that case. *)
Definition Sigma (t0 tau t : Real) : Real :=
  let x := (t - t0) / tau in
  let s := 1 / (1 + exp x) in
  s.

(* ------------------------------------------------------------------------- *)
(** ** class SpringZeroRecorder *)

(** The recorder keeps the last two event times and spring zeros.  It marks
    a time not yet recorded by NaN, the one value outside the reals that this
    file stores on purpose: a time is [None] for NaN and [Some t]
    otherwise. *)
Record SpringZeroRecorder : Type := mkRecorder {
  rec_t0 : option Real;   (* t[0] *)
  rec_t1 : option Real;   (* t[1] *)
  rec_p0 : Vec3;          (* p0[0] *)
  rec_p1 : Vec3           (* p0[1] *)
}.

(** The constructor: [t[0] = NaN; t[1] = NaN].  The two spring zeros are
    default-constructed, so their content is not determined there; they are
    arguments here. *)
Definition newSpringZeroRecorder (p0 p1 : Vec3) : SpringZeroRecorder :=
  mkRecorder None None p0 p1.

(** [handleEvent]; [time] stands for [state.getTime()]. *)
Definition handleEvent (rec : SpringZeroRecorder) (time : Real)
    (state : State) : SpringZeroRecorder :=
  let t0 := rec_t1 rec in
  let t1 := Some time in
  let p0 := rec_p1 rec in
  let p1 := getSprZero state in
  mkRecorder t0 t1 p0 p1.

(** Subtraction of two times either of which may be NaN. *)
Definition nanMinus (a b : option Real) : option Real :=
  match a, b with
  | Some x, Some y => Some (x - y)
  | _, _ => None
  end.

(** [getSpeed] *)
Definition getSpeed (rec : SpringZeroRecorder) : Real :=
  let dt := nanMinus (rec_t1 rec) (rec_t0 rec) in
  match dt with
  | None => 0
  | Some dt =>
      let delta := norm (rec_p1 rec - rec_p0 rec) in
      delta / dt
  end.

(** The recorder after a sequence of events, each a time and a state. *)
Definition handleEvents (rec : SpringZeroRecorder)
    (events : list (Real * State)) : SpringZeroRecorder :=
  fold_left (fun r e => handleEvent r (fst e) (snd e)) events rec.

(* ------------------------------------------------------------------------- *)
(** ** class ExponentialSpringForce: data accessors *)

Definition getNormalForceElasticPart (impl : ExponentialSpringForceImpl)
    (state : State) (inGround : bool) : Vec3 :=
  let fzElas := vfill 0 in
  let fzElas := vset2 fzElas (ESD.fzElas (getData state)) in
  if inGround then xformFrameVecToBase (contactPlane impl) fzElas
  else fzElas.

Definition getNormalForceDampingPart (impl : ExponentialSpringForceImpl)
    (state : State) (inGround : bool) : Vec3 :=
  let fzDamp := vfill 0 in
  let fzDamp := vset2 fzDamp (ESD.fzDamp (getData state)) in
  if inGround then xformFrameVecToBase (contactPlane impl) fzDamp
  else fzDamp.

Definition getNormalForce (impl : ExponentialSpringForceImpl)
    (state : State) (inGround : bool) : Vec3 :=
  let fz := vfill 0 in
  let fz := vset2 fz (ESD.fz (getData state)) in
  if inGround then xformFrameVecToBase (contactPlane impl) fz else fz.

Definition getMu (state : State) : Real := ESD.mu (getData state).

Definition getFrictionForceLimit (state : State) : Real :=
  ESD.fxyLimit (getData state).

Definition getFrictionForceElasticPart (impl : ExponentialSpringForceImpl)
    (state : State) (inGround : bool) : Vec3 :=
  let fricElas := ESD.fricElas (getData state) in
  if inGround then xformFrameVecToBase (contactPlane impl) fricElas
  else fricElas.

Definition getFrictionForceDampingPart (impl : ExponentialSpringForceImpl)
    (state : State) (inGround : bool) : Vec3 :=
  let fricDamp := ESD.fricDamp (getData state) in
  if inGround then xformFrameVecToBase (contactPlane impl) fricDamp
  else fricDamp.

Definition getFrictionForce (impl : ExponentialSpringForceImpl)
    (state : State) (inGround : bool) : Vec3 :=
  let fric := ESD.fric (getData state) in
  if inGround then xformFrameVecToBase (contactPlane impl) fric else fric.

Definition getForce (state : State) (inGround : bool) : Vec3 :=
  if inGround then ESD.f_G (getData state) else ESD.f (getData state).

Definition getStationPosition (impl : ExponentialSpringForceImpl)
    (state : State) (inGround : bool) : Vec3 :=
  let pos_B := station impl in
  let pos_G := findStationLocationInGround state pos_B in
  if inGround then pos_G
  else shiftBaseStationToFrame (contactPlane impl) pos_G.

Definition getStationVelocity (impl : ExponentialSpringForceImpl)
    (state : State) (inGround : bool) : Vec3 :=
  let pos_B := station impl in
  let vel_G := findStationVelocityInGround state pos_B in
  if inGround then vel_G
  else xformBaseVecToFrame (contactPlane impl) vel_G.

(* ------------------------------------------------------------------------- *)
(** ** Further concrete contact points *)

Module Example2.

(** Freshly realized topology; the station leaves the plane at speed 2, so
    that the damping part of the normal force outweighs the elastic part. *)
Definition separating : State :=
  realizeSubsystemTopologyImpl Example.impl
    (Example.blank (vfill 0) (mkVec3 0 0 2)).

(** The displaced station of [Example.displaced] with the sliding state
    brought to 0 by the integrator. *)
Definition stuck : State :=
  advance 0 (fun _ => mkVec3 (/ 4) 0 0) (fun _ => vfill 0)
    (fun _ => vfill 0) Example.atRest.

(** The example parameters with another settle velocity. *)
Definition params' : ExponentialSpringParameters :=
  mkParams 0 1 1 1 1 1 1 5.

Definition impl' : ExponentialSpringForceImpl :=
  newExponentialSpringForceImpl Example.floor (vfill 0) (1 / 2) (1 / 2)
    params' Example.zeroData.

(** The station of [Example.atRest] with a non-zero acceleration. *)
Definition accelerating : State :=
  advance 1 (fun _ => vfill 0) (fun _ => vfill 0) (fun _ => mkVec3 3 0 0)
    Example.atRest.


End Example2.

(* ------------------------------------------------------------------------- *)
(** ** The normal force over doubles with infinities and NaN *)

(** A double as far as the normal force needs it: a number, an infinity or
    NaN.  Numbers are exact (rounding, and the overflow of [+], [-] and [*],
    are not modelled); the special values follow IEEE 754. *)
Inductive Double : Type :=
| Num (r : R)
| PInf
| NInf
| NaN.

(** unary [-] *)
Definition dopp (a : Double) : Double :=
  match a with
  | Num r => Num (- r)
  | PInf => NInf
  | NInf => PInf
  | NaN => NaN
  end.

(** The infinity of the sign of [r], and NaN for zero: [r * inf]. *)
Definition dsigned (r : R) (inf : Double) : Double :=
  if Rltb 0 r then inf
  else if Rltb r 0 then dopp inf
  else NaN.

(** [*] *)
Definition dmul (a b : Double) : Double :=
  match a, b with
  | NaN, _ | _, NaN => NaN
  | Num x, Num y => Num (x * y)
  | Num x, PInf | PInf, Num x => dsigned x PInf
  | Num x, NInf | NInf, Num x => dsigned x NInf
  | PInf, PInf | NInf, NInf => PInf
  | PInf, NInf | NInf, PInf => NInf
  end.

(** [+] *)
Definition dadd (a b : Double) : Double :=
  match a, b with
  | NaN, _ | _, NaN => NaN
  | Num x, Num y => Num (x + y)
  | PInf, NInf | NInf, PInf => NaN
  | PInf, _ | _, PInf => PInf
  | NInf, _ | _, NInf => NInf
  end.

(** binary [-] *)
Definition dsub (a b : Double) : Double := dadd a (dopp b).

(** [a > b]; false when either is NaN. *)
Definition dgtb (a b : Double) : bool :=
  match a, b with
  | NaN, _ | _, NaN => false
  | Num x, Num y => Rgtb x y
  | PInf, PInf | NInf, _ | Num _, PInf => false
  | PInf, _ | Num _, NInf => true
  end.

(** [a < b] *)
Definition dltb (a b : Double) : bool := dgtb b a.

(** [a <= b]; false when either is NaN. *)
Definition dleb (a b : Double) : bool :=
  match a, b with
  | NaN, _ | _, NaN => false
  | _, _ => negb (dgtb a b)
  end.

Section NormalForceD.

(** The largest argument at which [std::exp] is still finite (about 709.78
    for doubles). *)
Variable expMax : R.

(** [std::exp]: it overflows to [+inf] above [expMax]. *)
Definition dexp (a : Double) : Double :=
  match a with
  | Num r => if Rgtb r expMax then PInf else Num (exp r)
  | PInf => PInf
  | NInf => Num 0
  | NaN => NaN
  end.

(** [ClampAboveZero] over doubles: a NaN passes both tests. *)
Definition ClampAboveZeroD (value max : Double) : Double :=
  if dgtb value max then max
  else if dltb value (Num 0) then Num 0
  else value.

(** The normal-force statements of [realizeSubsystemDynamicsImpl] over
    doubles; returns [data.fzElas], [data.fzDamp] and [data.fz]. *)
Definition normalForceD (d0 d1 d2 kvNorm pz vz : Double)
  : Double * Double * Double :=
  let fzElas := dmul d1 (dexp (dmul (dopp d2) (dsub pz d0))) in
  let fzDamp := dmul (dmul (dopp kvNorm) vz) fzElas in
  let fz := dadd fzElas fzDamp in
  let fz := ClampAboveZeroD fz (Num 100000) in
  (fzElas, fzDamp, fz).

End NormalForceD.

(* ------------------------------------------------------------------------- *)
(** ** Comparisons and vectors *)

Lemma Rltb_true_iff (a b : Real) : Rltb a b = true <-> a < b.
Proof. unfold Rltb; destruct (Rlt_dec a b); split; intros; congruence || auto. Qed.

Lemma Rltb_false_iff (a b : Real) : Rltb a b = false <-> ~ a < b.
Proof. unfold Rltb; destruct (Rlt_dec a b); split; intros; congruence || tauto. Qed.

Lemma Rgtb_true_iff (a b : Real) : Rgtb a b = true <-> a > b.
Proof. unfold Rgtb; destruct (Rgt_dec a b); split; intros; congruence || auto. Qed.

Lemma Rgtb_false_iff (a b : Real) : Rgtb a b = false <-> a <= b.
Proof.
  unfold Rgtb; destruct (Rgt_dec a b); split; intros; try congruence; lra.
Qed.

(** Decide every comparison in sight and keep the facts. *)
Ltac cmp :=
  repeat match goal with
  | |- context [Rltb ?a ?b] =>
      let H := fresh "C" in
      destruct (Rltb a b) eqn:H;
      [apply Rltb_true_iff in H | apply Rltb_false_iff in H]
  | |- context [Rgtb ?a ?b] =>
      let H := fresh "C" in
      destruct (Rgtb a b) eqn:H;
      [apply Rgtb_true_iff in H | apply Rgtb_false_iff in H]
  | |- context [Rlt_dec ?a ?b] => destruct (Rlt_dec a b)
  | |- context [Rgt_dec ?a ?b] => destruct (Rgt_dec a b)
  end.

Lemma vec_eq (a b : Vec3) :
  e0 a = e0 b -> e1 a = e1 b -> e2 a = e2 b -> a = b.
Proof. destruct a, b; simpl; intros; subst; reflexivity. Qed.

Lemma vscale_0 (a : Vec3) : vscale 0 a = vfill 0.
Proof. destruct a; unfold vscale, vfill; simpl. f_equal; ring. Qed.

Lemma vscale_1 (a : Vec3) : vscale 1 a = a.
Proof. destruct a; unfold vscale; simpl. f_equal; ring. Qed.

Lemma normSqr_nonneg (a : Vec3) : 0 <= normSqr a.
Proof. unfold normSqr; nra. Qed.

Lemma norm_nonneg (a : Vec3) : 0 <= norm a.
Proof. apply sqrt_pos. Qed.

Lemma norm_norm (a : Vec3) : norm a * norm a = normSqr a.
Proof. apply sqrt_sqrt, normSqr_nonneg. Qed.

Lemma norm_zero : norm (vfill 0) = 0.
Proof.
  unfold norm, normSqr; simpl.
  replace (0 * 0 + 0 * 0 + 0 * 0) with 0 by ring. apply sqrt_0.
Qed.

Lemma norm_vscale (s : Real) (a : Vec3) : norm (vscale s a) = Rabs s * norm a.
Proof.
  unfold norm.
  replace (normSqr (vscale s a)) with (Rsqr s * normSqr a)
    by (unfold normSqr, Rsqr; simpl; ring).
  rewrite sqrt_mult_alt by apply Rle_0_sqr.
  now rewrite sqrt_Rsqr_abs.
Qed.

(** The norm is determined by, and monotone in, the squared norm. *)
Lemma norm_le_of_sqr (a : Vec3) (L : Real) :
  0 <= L -> normSqr a <= L * L -> norm a <= L.
Proof.
  intros HL H. unfold norm.
  rewrite <- (sqrt_square L HL). now apply sqrt_le_1_alt.
Qed.

Lemma dot_le_norms (a b : Vec3) :
  e0 a * e0 b + e1 a * e1 b + e2 a * e2 b <= norm a * norm b.
Proof.
  set (d := e0 a * e0 b + e1 a * e1 b + e2 a * e2 b).
  destruct (Rle_lt_dec d 0) as [Hd|Hd].
  - pose proof (norm_nonneg a); pose proof (norm_nonneg b); nra.
  - assert (Hsq : d * d <= (norm a * norm b) * (norm a * norm b)).
    { replace (norm a * norm b * (norm a * norm b))
        with ((norm a * norm a) * (norm b * norm b)) by ring.
      rewrite !norm_norm. unfold d, normSqr.
      pose proof (Rle_0_sqr (e0 a * e1 b - e1 a * e0 b)).
      pose proof (Rle_0_sqr (e0 a * e2 b - e2 a * e0 b)).
      pose proof (Rle_0_sqr (e1 a * e2 b - e2 a * e1 b)).
      unfold Rsqr in *. nra. }
    assert (Hn : 0 <= norm a * norm b)
      by (apply Rmult_le_pos; apply norm_nonneg).
    destruct (Rle_lt_dec d (norm a * norm b)) as [Hle|Hlt]; [exact Hle|].
    exfalso. assert (norm a * norm b * (norm a * norm b) < d * d) by nra. lra.
Qed.

Lemma norm_triangle (a b : Vec3) : norm (a + b) <= norm a + norm b.
Proof.
  pose proof (norm_nonneg a); pose proof (norm_nonneg b).
  apply norm_le_of_sqr; [lra|].
  pose proof (dot_le_norms a b).
  pose proof (norm_norm a); pose proof (norm_norm b).
  unfold normSqr in *; simpl. nra.
Qed.

(* ------------------------------------------------------------------------- *)
(** ** What a force evaluation leaves untouched *)

Section Frame.

Variable SignificantReal : Real.
Variable impl : ExponentialSpringForceImpl.

Local Abbreviation dyn := (realizeSubsystemDynamicsImpl SignificantReal impl).
Local Abbreviation acc := (realizeSubsystemAccelerationImpl SignificantReal impl).

Lemma dynamics_frame (state : State) :
  st_mus (dyn state) = st_mus state /\
  st_muk (dyn state) = st_muk state /\
  st_sprZero (dyn state) = st_sprZero state /\
  st_z (dyn state) = st_z state /\
  st_zDot (dyn state) = st_zDot state /\
  st_sprZeroCacheRealized (dyn state) = true.
Proof.
  unfold realizeSubsystemDynamicsImpl; simpl.
  destruct (frictionSpring _ _ _ _ _) as [[[lr fe] fd] fs]; simpl.
  repeat split.
Qed.

Lemma dynamics_anchor_inPlane (state : State) :
  inPlane (st_sprZeroInCache (dyn state)).
Proof.
  unfold realizeSubsystemDynamicsImpl; simpl.
  destruct (frictionSpring _ _ _ _ _) as [[[lr fe] fd] fs]; simpl.
  reflexivity.
Qed.

Lemma acceleration_frame (state : State) :
  st_mus (acc state) = st_mus state /\
  st_muk (acc state) = st_muk state /\
  st_sprZero (acc state) = st_sprZero state /\
  st_sprZeroInCache (acc state) = st_sprZeroInCache state /\
  st_sprZeroCacheRealized (acc state) = st_sprZeroCacheRealized state /\
  st_z (acc state) = st_z state /\
  st_data (acc state) = st_data state.
Proof. unfold realizeSubsystemAccelerationImpl; simpl. repeat split. Qed.

Lemma dynamics_sprZeroInCache (state : State) :
  let data := getData (dyn state) in
  getSprZeroInCache (dyn state)
    = vset2 (ESD.pxy data
             + vdiv (ESD.fricElas data) (getElasticity (params impl))) 0.
Proof.
  unfold realizeSubsystemDynamicsImpl; simpl.
  destruct (frictionSpring _ _ _ _ _) as [[[lr fe] fd] fs]; reflexivity.
Qed.

Lemma dynamics_tangent (state : State) :
  inPlane (ESD.pxy (getData (dyn state))) /\
  inPlane (ESD.vxy (getData (dyn state))).
Proof.
  unfold realizeSubsystemDynamicsImpl; simpl.
  destruct (frictionSpring _ _ _ _ _) as [[[lr fe] fd] fs]; simpl.
  split; reflexivity.
Qed.

(** The friction part of the data, in terms of the two candidates. *)
Lemma dynamics_friction (state : State) :
  let data := getData (dyn state) in
  let sliding := boundSliding (getSliding state) in
  let fricDampSpr := vscale (- getViscosity (params impl)) (ESD.vxy data) in
  let spring :=
    frictionSpring (getElasticity (params impl)) (ESD.pxy data)
      (getSprZero state) fricDampSpr (ESD.fxyLimit data) in
  ESD.mu data
    = getMuStatic state - sliding * (getMuStatic state - getMuKinetic state) /\
  ESD.fxyLimit data = ESD.mu data * ESD.fz data /\
  0 <= ESD.fz data /\
  ESD.limitReached data = fst (fst (fst spring)) /\
  ESD.fricElas data = vscale (1 - sliding) (snd (fst (fst spring))) /\
  ESD.fricDamp data
    = (snd (fst spring)
       + vscale sliding
           (frictionLimit SignificantReal fricDampSpr (ESD.fxyLimit data)
            - snd (fst spring)))%V /\
  ESD.fric data = (ESD.fricElas data + ESD.fricDamp data)%V.
Proof.
  unfold realizeSubsystemDynamicsImpl; simpl.
  destruct (frictionSpring _ _ _ _ _) as [[[lr fe] fd] fs] eqn:E; simpl.
  rewrite E; simpl.
  repeat split.
  unfold ClampAboveZero.
  repeat match goal with |- context [Rgt_dec ?a ?b] => destruct (Rgt_dec a b)
                    | |- context [Rlt_dec ?a ?b] => destruct (Rlt_dec a b) end;
    lra.
Qed.

End Frame.

(* ------------------------------------------------------------------------- *)
(** ** The invariants are established and preserved *)

Lemma newImpl_inv floor station mus muk params data0 :
  ImplInv (newExponentialSpringForceImpl floor station mus muk params data0).
Proof.
  unfold ImplInv, newExponentialSpringForceImpl, inPlane; simpl.
  cmp; repeat split; lra.
Qed.

Lemma topology_inv impl state :
  ImplInv impl -> StateInv (realizeSubsystemTopologyImpl impl state).
Proof.
  intros (H0 & H1 & H2).
  unfold StateInv, CoefficientsInv, SprZeroInv; simpl.
  repeat split; auto. discriminate.
Qed.

Lemma setMuStatic_inv state mus :
  StateInv state -> StateInv (setMuStatic state mus).
Proof.
  intros [[H0 H1] [H2 H3]].
  unfold StateInv, CoefficientsInv, SprZeroInv, setMuStatic,
    getMuKinetic, getMuStatic, getSprZero, getSprZeroInCache in *; simpl.
  cmp; simpl; repeat split; auto; lra.
Qed.

Lemma setMuKinetic_inv state muk :
  StateInv state -> StateInv (setMuKinetic state muk).
Proof.
  intros [[H0 H1] [H2 H3]].
  unfold StateInv, CoefficientsInv, SprZeroInv, setMuKinetic,
    getMuKinetic, getMuStatic, getSprZero, getSprZeroInCache in *; simpl.
  cmp; simpl; repeat split; auto; lra.
Qed.

Lemma resetSprZero_inv impl state :
  StateInv state -> StateInv (resetSprZero impl state).
Proof.
  intros [[H0 H1] [H2 H3]].
  unfold StateInv, CoefficientsInv, SprZeroInv, resetSprZero, inPlane,
    getMuKinetic, getMuStatic, getSprZero, getSprZeroInCache in *; simpl.
  repeat split; auto.
Qed.

Lemma dynamics_inv sig impl state :
  StateInv state -> StateInv (realizeSubsystemDynamicsImpl sig impl state).
Proof.
  intros [[H0 H1] [H2 H3]].
  destruct (dynamics_frame sig impl state) as (E1 & E2 & E3 & _).
  pose proof (dynamics_anchor_inPlane sig impl state) as E4.
  unfold StateInv, CoefficientsInv, SprZeroInv,
    getMuKinetic, getMuStatic, getSprZero, getSprZeroInCache in *.
  rewrite E1, E2, E3. repeat split; auto.
Qed.

Lemma acceleration_inv sig impl state :
  StateInv state ->
  StateInv (realizeSubsystemAccelerationImpl sig impl state).
Proof.
  intros [[H0 H1] [H2 H3]].
  destruct (acceleration_frame sig impl state) as (E1 & E2 & E3 & E4 & E5 & _).
  unfold StateInv, CoefficientsInv, SprZeroInv,
    getMuKinetic, getMuStatic, getSprZero, getSprZeroInCache in *.
  rewrite E1, E2, E3, E4, E5. repeat split; auto.
Qed.

Lemma advance_inv z loc vel a state :
  StateInv state -> StateInv (advance z loc vel a state).
Proof.
  intros [[H0 H1] [H2 H3]].
  unfold StateInv, CoefficientsInv, SprZeroInv, advance,
    autoUpdateDiscreteVariables,
    getMuKinetic, getMuStatic, getSprZero, getSprZeroInCache in *.
  destruct (st_sprZeroCacheRealized state) eqn:E; simpl;
    repeat split; auto; try discriminate.
  rewrite E; auto.
Qed.

Lemma call_inv sig impl state c :
  StateInv state -> StateInv (call sig impl state c).
Proof.
  destruct c; simpl;
    auto using setMuStatic_inv, setMuKinetic_inv, resetSprZero_inv,
      dynamics_inv, acceleration_inv, advance_inv.
Qed.

Lemma calls_inv sig impl cs :
  forall state, StateInv state -> StateInv (calls sig impl state cs).
Proof.
  unfold calls. induction cs as [|c cs IH]; simpl; intros state H.
  - exact H.
  - apply IH, call_inv, H.
Qed.

(* ------------------------------------------------------------------------- *)
(** ** Parameter and coefficient store *)

(** C5.  After construction and topology realization, and after any sequence
    of calls on the subsystem (in particular any sequence of [setMuStatic]
    and [setMuKinetic] with arbitrary arguments), the stored coefficients
    satisfy [0 <= muKinetic <= muStatic].  [setMuStatic] stores its argument
    clamped to be non-negative and lowers [muKinetic] to it when
    [muKinetic] would exceed it; [setMuKinetic] stores its argument clamped
    to be non-negative and raises [muStatic] to it when it would exceed
    [muStatic]. *)
Theorem friction_coefficients_invariant :
  (forall sig floor station mus muk params data0 state0 cs,
      let impl :=
        newExponentialSpringForceImpl floor station mus muk params data0 in
      let state :=
        calls sig impl (realizeSubsystemTopologyImpl impl state0) cs in
      0 <= getMuKinetic state /\
      getMuKinetic state <= getMuStatic state /\
      0 <= getMuStatic state) /\
  (forall state mus,
      getMuStatic (setMuStatic state mus) = Rmax mus 0 /\
      getMuKinetic (setMuStatic state mus)
        = Rmin (getMuKinetic state) (Rmax mus 0)) /\
  (forall state muk,
      getMuKinetic (setMuKinetic state muk) = Rmax muk 0 /\
      getMuStatic (setMuKinetic state muk)
        = Rmax (getMuStatic state) (Rmax muk 0)).
Proof.
  split; [|split].
  - intros sig floor station mus muk params data0 state0 cs impl state.
    assert (H : StateInv state)
      by (apply calls_inv, topology_inv, newImpl_inv).
    destruct H as [[H0 H1] _]. repeat split; auto; lra.
  - intros state mus.
    unfold setMuStatic, getMuStatic, getMuKinetic, Rmax, Rmin.
    cmp; simpl in *;
      repeat destruct (Rle_dec _ _); simpl; split; lra.
  - intros state muk.
    unfold setMuKinetic, getMuStatic, getMuKinetic, Rmax.
    cmp; simpl in *;
      repeat destruct (Rle_dec _ _); simpl; split; lra.
Qed.

(* ------------------------------------------------------------------------- *)
(** ** Normal force law *)

Lemma ClampAboveZero_clamp (value max : Real) :
  0 <= max -> ClampAboveZero value max = clamp value 0 max.
Proof.
  intros Hmax. unfold ClampAboveZero, clamp, Rmax, Rmin.
  cmp; repeat destruct (Rle_dec _ _); lra.
Qed.

Lemma ClampAboveZero_bounds (value max : Real) :
  0 <= max -> 0 <= ClampAboveZero value max <= max.
Proof. intros Hmax. unfold ClampAboveZero. cmp; lra. Qed.

(** The normal force over doubles agrees with the one over the reals as
    long as the exponential does not overflow, and then lies within
    [[0, 100000]]. *)
Lemma normalForceD_numeric (expMax d0 d1 d2 kvNorm pz vz : R) :
  - d2 * (pz - d0) <= expMax ->
  let fzElas := d1 * exp (- d2 * (pz - d0)) in
  let fzDamp := - kvNorm * vz * fzElas in
  let fz := ClampAboveZero (fzElas + fzDamp) 100000 in
  normalForceD expMax (Num d0) (Num d1) (Num d2) (Num kvNorm) (Num pz)
    (Num vz)
  = (Num fzElas, Num fzDamp, Num fz) /\
  0 <= fz <= 100000.
Proof.
  intros Hle fzElas fzDamp fz. split.
  - unfold normalForceD, dexp, dsub; simpl.
    assert (Hg : Rgtb (- d2 * (pz + - d0)) expMax = false).
    { apply Rgtb_false_iff.
      replace (- d2 * (pz + - d0)) with (- d2 * (pz - d0)) by ring.
      exact Hle. }
    rewrite Hg; simpl.
    replace (- d2 * (pz + - d0)) with (- d2 * (pz - d0)) by ring.
    fold fzElas. fold fzDamp.
    unfold ClampAboveZeroD, dltb, dgtb, fz, ClampAboveZero, Rgtb, Rltb.
    cmp; try reflexivity; lra.
  - apply ClampAboveZero_bounds. lra.
Qed.

(** The same for the data of a force evaluation. *)
Lemma dynamics_normal_numeric (expMax sig : R)
    (impl : ExponentialSpringForceImpl) (state : State) :
  let data := getData (realizeSubsystemDynamicsImpl sig impl state) in
  - d2 (params impl) * (ESD.pz data - d0 (params impl)) <= expMax ->
  normalForceD expMax (Num (d0 (params impl))) (Num (d1 (params impl)))
    (Num (d2 (params impl))) (Num (getNormalViscosity (params impl)))
    (Num (ESD.pz data)) (Num (ESD.vz data))
  = (Num (ESD.fzElas data), Num (ESD.fzDamp data), Num (ESD.fz data)) /\
  ESD.fz data = clamp (ESD.fzElas data + ESD.fzDamp data) 0 100000 /\
  0 <= ESD.fz data <= 100000.
Proof.
  intros data Hle.
  assert (H : ESD.fzElas data
              = d1 (params impl)
                * exp (- d2 (params impl) * (ESD.pz data - d0 (params impl)))
              /\
              ESD.fzDamp data
              = - getNormalViscosity (params impl) * ESD.vz data
                * ESD.fzElas data /\
              ESD.fz data
              = ClampAboveZero (ESD.fzElas data + ESD.fzDamp data) 100000).
  { unfold data, realizeSubsystemDynamicsImpl; simpl.
    destruct (frictionSpring _ _ _ _ _) as [[[lr fe] fd] fs]; simpl.
    repeat split. }
  destruct H as (Hel & Hda & Hfz).
  destruct (normalForceD_numeric expMax (d0 (params impl)) (d1 (params impl))
              (d2 (params impl)) (getNormalViscosity (params impl))
              (ESD.pz data) (ESD.vz data) Hle) as [HN HB].
  cbv zeta in HN, HB. rewrite <- Hel in HN, HB. rewrite <- Hda in HN, HB.
  rewrite <- Hfz in HN, HB.
  split; [exact HN|]. split; [|exact HB].
  rewrite Hfz. apply ClampAboveZero_clamp. lra.
Qed.

(** C4.  The claim is that [fz = clamp(fzElas + fzDamp, 0, fzMax)] with
    [fzElas = d1 * exp(-d2 * (pz - d0))], [fzDamp = -kvNormal * vz * fzElas]
    and [fzMax = 100000], hence that [fz] always lies in [[0, fzMax]].  The
    code does not keep it: when the station is so far below the plane that
    the exponential overflows ([-d2 * (pz - d0)] above [expMax]), with
    [d1 > 0] and [kvNormal * vz >= 0], [fzElas] is [+inf], [fzDamp] is
    [-inf] or NaN, their sum is NaN, and [ClampAboveZero], whose two tests
    are both false on NaN, returns it: [fz] is NaN, neither [>= 0] nor
    [<= fzMax]. *)
Theorem normal_force_nan_on_overflow :
  forall expMax d0 d1 d2 kvNorm pz vz : R,
    0 < d1 ->
    0 <= kvNorm * vz ->
    expMax < - d2 * (pz - d0) ->
    let r :=
      normalForceD expMax (Num d0) (Num d1) (Num d2) (Num kvNorm) (Num pz)
        (Num vz) in
    fst (fst r) = PInf /\
    (snd (fst r) = NInf \/ snd (fst r) = NaN) /\
    snd r = NaN /\
    dleb (Num 0) (snd r) = false /\
    dleb (snd r) (Num 100000) = false.
Proof.
  intros expMax d0 d1 d2 kvNorm pz vz Hd1 Hkv Hover r.
  unfold r, normalForceD, dexp, dsub; simpl.
  assert (Hg : Rgtb (- d2 * (pz + - d0)) expMax = true).
  { apply Rgtb_true_iff.
    replace (- d2 * (pz + - d0)) with (- d2 * (pz - d0)) by ring.
    exact Hover. }
  rewrite Hg; simpl.
  assert (H1 : dsigned d1 PInf = PInf).
  { unfold dsigned.
    assert (Hp : Rltb 0 d1 = true) by (apply Rltb_true_iff; exact Hd1).
    rewrite Hp. reflexivity. }
  rewrite H1.
  assert (H2 : dsigned (- kvNorm * vz) PInf = NInf
               \/ dsigned (- kvNorm * vz) PInf = NaN).
  { unfold dsigned.
    assert (Hn : Rltb 0 (- kvNorm * vz) = false)
      by (apply Rltb_false_iff; lra).
    rewrite Hn. destruct (Rltb (- kvNorm * vz) 0); [left | right];
      reflexivity. }
  split; [reflexivity|]. split; [exact H2|].
  destruct H2 as [H2 | H2]; rewrite H2; simpl; repeat split; reflexivity.
Qed.

(** The failing input of C4: shape parameters [(0.0065905, 0.5336, 1150)],
    normal viscosity 0.5, the station at rest 0.7 below the plane. *)
Lemma normal_force_nan_on_overflow_witness :
  0 < 0.5336 /\
  0 <= 0.5 * 0 /\
  709.782712893384 < - 1150 * (- 0.7 - 0.0065905) /\
  snd (normalForceD 709.782712893384 (Num 0.0065905) (Num 0.5336)
         (Num 1150) (Num 0.5) (Num (- 0.7)) (Num 0))
  = NaN.
Proof.
  assert (H1 : 0 < 0.5336) by lra.
  assert (H2 : 0 <= 0.5 * 0) by lra.
  assert (H3 : 709.782712893384 < - 1150 * (- 0.7 - 0.0065905)) by lra.
  split; [exact H1|]. split; [exact H2|]. split; [exact H3|].
  exact (proj1 (proj2 (proj2
    (normal_force_nan_on_overflow 709.782712893384 0.0065905 0.5336 1150
       0.5 (- 0.7) 0 H1 H2 H3)))).
Defined.

(* ------------------------------------------------------------------------- *)
(** ** Sliding state read by the friction model *)

Lemma boundSliding_clamp (s : Real) : boundSliding s = clamp s 0 1.
Proof.
  unfold boundSliding, clamp, Rmax, Rmin.
  cmp; repeat destruct (Rle_dec _ _); lra.
Qed.

Lemma boundSliding_bounds (s : Real) : 0 <= boundSliding s <= 1.
Proof. unfold boundSliding. cmp; lra. Qed.

(** C6.  A force evaluation uses [sliding = clamp(s, 0, 1)] of the raw
    integrated state [s], which it leaves as it was; the effective
    coefficient is [mu = muStatic - sliding * (muStatic - muKinetic)], the
    Coulomb limit is [fxyLimit = mu * fz], and the blend of the two friction
    candidates is weighted by the same [sliding], which lies in [[0, 1]]
    whatever [s] is. *)
Theorem sliding_bounded_on_read :
  forall sig impl state,
    let state' := realizeSubsystemDynamicsImpl sig impl state in
    let data := getData state' in
    let sliding := boundSliding (getSliding state) in
    let fricDampSpr := vscale (- getViscosity (params impl)) (ESD.vxy data) in
    let spring :=
      frictionSpring (getElasticity (params impl)) (ESD.pxy data)
        (getSprZero state) fricDampSpr (ESD.fxyLimit data) in
    sliding = clamp (getSliding state) 0 1 /\
    0 <= sliding <= 1 /\
    getSliding state' = getSliding state /\
    ESD.mu data
      = getMuStatic state - sliding * (getMuStatic state - getMuKinetic state)
    /\
    ESD.fxyLimit data = ESD.mu data * ESD.fz data /\
    ESD.fricElas data = vscale (1 - sliding) (snd (fst (fst spring))) /\
    ESD.fricDamp data
      = (snd (fst spring)
         + vscale sliding
             (frictionLimit sig fricDampSpr (ESD.fxyLimit data)
              - snd (fst spring)))%V.
Proof.
  intros sig impl state.
  destruct (dynamics_friction sig impl state)
    as (Hmu & Hlim & _ & _ & HE & HD & _).
  destruct (dynamics_frame sig impl state) as (_ & _ & _ & Hz & _).
  cbv zeta.
  split; [apply boundSliding_clamp|].
  split; [apply boundSliding_bounds|].
  repeat split; assumption.
Qed.

(* ------------------------------------------------------------------------- *)
(** ** Initial sliding state *)

(** C10.  Topology realization initializes the sliding state to 1 (fully
    sliding), not 0 (stuck), whatever the constructor arguments and the
    incoming state are; the first force evaluation therefore applies no
    elastic (anchored-spring) friction at all.  A stuck start needs the state
    to be set after initialization. *)
Theorem topology_initial_sliding :
  forall sig impl state0,
    let state := realizeSubsystemTopologyImpl impl state0 in
    getSliding state = 1 /\
    getSliding state <> 0 /\
    boundSliding (getSliding state) = 1 /\
    ESD.fricElas (getData (realizeSubsystemDynamicsImpl sig impl state))
      = vfill 0.
Proof.
  intros sig impl state0 state.
  assert (Hz : getSliding state = 1) by reflexivity.
  assert (Hb : boundSliding (getSliding state) = 1).
  { rewrite Hz. unfold boundSliding. cmp; lra. }
  split; [exact Hz|]. split; [rewrite Hz; lra|]. split; [exact Hb|].
  destruct (dynamics_friction sig impl state) as (_ & _ & _ & _ & HE & _).
  rewrite HE, Hb. replace (1 - 1) with 0 by ring. apply vscale_0.
Qed.

(* ------------------------------------------------------------------------- *)
(** ** Sliding state machine *)

(** C1.  The derivative-update step sets [sDot = (1 - s)/tau] when the
    friction limit was saturated or [fz] is below the noise threshold (rise);
    otherwise [sDot = -s/tau] when the limit was not saturated and
    [|vxy| < 0.001] and [|vz| < 0.001] (decay); otherwise [sDot = 0] (hold).
    Rise is tested last and overwrites decay, so it wins when both hold. *)
Theorem sliding_derivative_transition :
  forall sig impl state,
    let data := getData state in
    let s := getSliding state in
    let tau := getSlidingTimeConstant (params impl) in
    let sDot :=
      getSlidingDotInCache (realizeSubsystemAccelerationImpl sig impl state) in
    let decay :=
      ESD.limitReached data = false /\
      norm (ESD.vxy data) < 0.001 /\ Rabs (ESD.vz data) < 0.001 in
    let rise := ESD.limitReached data = true \/ ESD.fz data < sig in
    (rise /\ sDot = (1 - s) / tau) \/
    (~ rise /\ decay /\ sDot = - s / tau) \/
    (~ rise /\ ~ decay /\ sDot = 0).
Proof.
  intros sig impl state.
  unfold realizeSubsystemAccelerationImpl, getSlidingDotInCache,
    updSlidingDotInCache, getData, getSliding; simpl.
  destruct (ESD.limitReached (st_data state)) eqn:EL; simpl.
  - left. split; [left; reflexivity|]. unfold Rdiv; ring.
  - destruct (Rltb (ESD.fz (st_data state)) sig) eqn:EF.
    + apply Rltb_true_iff in EF. left. split; [right; exact EF|].
      unfold Rdiv; ring.
    + apply Rltb_false_iff in EF. right.
      assert (NR : ~ (false = true \/ ESD.fz (st_data state) < sig))
        by (intros [H|H]; [discriminate | tauto]).
      destruct (Rltb (norm (ESD.vxy (st_data state))) 0.001) eqn:EV;
        [apply Rltb_true_iff in EV | apply Rltb_false_iff in EV];
        (destruct (Rltb (Rabs (ESD.vz (st_data state))) 0.001) eqn:EZ;
         [apply Rltb_true_iff in EZ | apply Rltb_false_iff in EZ]); simpl.
      * left. repeat split; auto. unfold Rdiv; ring.
      * right. repeat split; auto. tauto.
      * right. repeat split; auto. tauto.
      * right. repeat split; auto. tauto.
Qed.

(* ------------------------------------------------------------------------- *)
(** ** Energy accounting *)

(** C7.  The potential energy is
    [E = fzElas/d2 + 0.5 * kpFriction * |pxy - anchor|^2] where [anchor] is
    the update value of the spring zero held in the cache; the spring zero
    held in the state plays no part.  After a force evaluation that update
    value is the anchor the evaluation has just written. *)
Theorem potential_energy_uses_cached_anchor :
  forall sig impl state,
    let kpFric := getElasticity (params impl) in
    (let data := getData state in
     calcPotentialEnergy impl state
       = ESD.fzElas data / d2 (params impl)
         + 0.5 * kpFric * norm (ESD.pxy data - getSprZeroInCache state) ^ 2) /\
    (forall p0,
        calcPotentialEnergy impl (set_sprZero state p0)
          = calcPotentialEnergy impl state) /\
    (let state' := realizeSubsystemDynamicsImpl sig impl state in
     let data := getData state' in
     let newAnchor :=
       vset2 (ESD.pxy data + vdiv (ESD.fricElas data) kpFric) 0 in
     getSprZeroInCache state' = newAnchor /\
     getSprZero state' = getSprZero state /\
     calcPotentialEnergy impl state'
       = ESD.fzElas data / d2 (params impl)
         + 0.5 * kpFric * norm (ESD.pxy data - newAnchor) ^ 2).
Proof.
  intros sig impl state kpFric.
  assert (F : forall st,
    calcPotentialEnergy impl st
      = ESD.fzElas (getData st) / d2 (params impl)
        + 0.5 * kpFric
          * norm (ESD.pxy (getData st) - getSprZeroInCache st) ^ 2).
  { intros st. unfold calcPotentialEnergy; simpl. fold kpFric. ring. }
  split; [apply F|]. split; [reflexivity|].
  cbv zeta.
  pose proof (dynamics_sprZeroInCache sig impl state) as A.
  cbv zeta in A. fold kpFric in A.
  split; [exact A|]. split.
  - apply (dynamics_frame sig impl state).
  - rewrite F, A. reflexivity.
Qed.

(* ------------------------------------------------------------------------- *)
(** ** Frame transform *)

(** C8 as stated fails: the normal component of the plane-local velocity is
    not snapped.  With the contact plane in the ground frame and a station
    velocity of 1e-15 along the normal, below the threshold 1e-14, the force
    evaluation still reports [vz = 1e-15]. *)
Lemma velocity_normal_component_not_snapped :
  let state := Example.creeping in
  let data :=
    getData (realizeSubsystemDynamicsImpl Example.SignificantReal
               Example.impl state) in
  let v :=
    xformBaseVecToFrame (contactPlane Example.impl)
      (findStationVelocityInGround state (station Example.impl)) in
  Rabs (e2 v) < Example.SignificantReal /\
  e2 (ESD.v data) <> 0 /\ ESD.vz data <> 0.
Proof.
  cbv zeta. unfold realizeSubsystemDynamicsImpl; simpl.
  destruct (frictionSpring _ _ _ _ _) as [[[lr fe] fd] fs]; simpl.
  assert (H0 : Rabs 0 < Example.SignificantReal).
  { rewrite Rabs_R0. unfold Example.SignificantReal. lra. }
  apply Rltb_true_iff in H0. rewrite H0; simpl. rewrite H0; simpl.
  split.
  - unfold Example.SignificantReal. rewrite Rabs_pos_eq; lra.
  - split; lra.
Qed.

(** C8, amended.  Of the plane-local velocity, the two tangential components
    (indices 0 and 1) are set to exactly zero when their magnitude is below
    [SignificantReal]; the normal component (index 2) is passed on as it is.
    [vz] is that normal component, and [vxy] is the snapped velocity with its
    normal component zeroed. *)
Theorem velocity_snap_tangential_only :
  forall sig impl state,
    let data := getData (realizeSubsystemDynamicsImpl sig impl state) in
    let v :=
      xformBaseVecToFrame (contactPlane impl)
        (findStationVelocityInGround state (station impl)) in
    (Rabs (e0 v) < sig /\ e0 (ESD.v data) = 0 \/
     ~ Rabs (e0 v) < sig /\ e0 (ESD.v data) = e0 v) /\
    (Rabs (e1 v) < sig /\ e1 (ESD.v data) = 0 \/
     ~ Rabs (e1 v) < sig /\ e1 (ESD.v data) = e1 v) /\
    e2 (ESD.v data) = e2 v /\
    ESD.vz data = e2 v /\
    ESD.vxy data = vset2 (ESD.v data) 0.
Proof.
  intros sig impl state.
  unfold realizeSubsystemDynamicsImpl; simpl.
  destruct (frictionSpring _ _ _ _ _) as [[[lr fe] fd] fs]; simpl.
  clear.
  set (v := xformBaseVecToFrame (contactPlane impl)
              (findStationVelocityInGround state (station impl))).
  destruct (Rltb (Rabs (e0 v)) sig) eqn:C0;
    [apply Rltb_true_iff in C0 | apply Rltb_false_iff in C0]; simpl;
  (destruct (Rltb (Rabs (e1 v)) sig) eqn:C1;
    [apply Rltb_true_iff in C1 | apply Rltb_false_iff in C1]); simpl;
  repeat split; auto.
Qed.

(* ------------------------------------------------------------------------- *)
(** ** The damper-only friction candidate *)

Lemma vdiv_vscale (a : Vec3) (s : Real) : vdiv a s = vscale (/ s) a.
Proof. unfold vdiv, vscale, Rdiv. f_equal; ring. Qed.

Lemma vscale_vscale (s t : Real) (a : Vec3) :
  vscale s (vscale t a) = vscale (s * t) a.
Proof. unfold vscale; simpl. f_equal; ring. Qed.

Lemma norm_capped (a : Vec3) (L : Real) :
  0 <= L -> norm a > L -> norm (vscale (L / norm a) a) = L.
Proof.
  intros HL Hn. rewrite norm_vscale.
  assert (Hpos : 0 < norm a) by lra.
  rewrite Rabs_pos_eq.
  - field. lra.
  - apply Rmult_le_pos; [exact HL|]. left. now apply Rinv_0_lt_compat.
Qed.

Lemma frictionLimit_cases (sig : Real) (fricDampSpr : Vec3) (fxyLimit : Real) :
  (fxyLimit < sig /\ frictionLimit sig fricDampSpr fxyLimit = vfill 0) \/
  (~ fxyLimit < sig /\ norm fricDampSpr <= fxyLimit /\
   frictionLimit sig fricDampSpr fxyLimit = fricDampSpr) \/
  (~ fxyLimit < sig /\ norm fricDampSpr > fxyLimit /\
   frictionLimit sig fricDampSpr fxyLimit
     = vscale (fxyLimit / norm fricDampSpr) fricDampSpr).
Proof.
  unfold frictionLimit. cmp.
  - left; split; auto.
  - right; right. repeat split; auto.
    unfold normalize. rewrite vdiv_vscale, vscale_vscale. reflexivity.
  - right; left. repeat split; auto.
Qed.

Lemma frictionLimit_norm_le (sig : Real) (fricDampSpr : Vec3) (fxyLimit : Real) :
  0 <= fxyLimit -> norm (frictionLimit sig fricDampSpr fxyLimit) <= fxyLimit.
Proof.
  intros HL.
  destruct (frictionLimit_cases sig fricDampSpr fxyLimit)
    as [[_ E] | [(_ & Hn & E) | (_ & Hn & E)]]; rewrite E.
  - rewrite norm_zero. exact HL.
  - exact Hn.
  - rewrite norm_capped; auto. lra.
Qed.

Lemma frictionLimit_guarded (sig : Real) (fricDampSpr : Vec3) (fxyLimit : Real) :
  frictionLimitGuarded sig fricDampSpr fxyLimit
    = Some (frictionLimit sig fricDampSpr fxyLimit).
Proof.
  unfold frictionLimitGuarded, frictionLimit, normalizeGuarded, normalize.
  destruct (Rltb fxyLimit sig) eqn:C0; [reflexivity|].
  apply Rltb_false_iff in C0.
  destruct (Rgtb (norm fricDampSpr) fxyLimit) eqn:C1; [|reflexivity].
  apply Rgtb_true_iff in C1.
  assert (C2 : ~ norm fricDampSpr < sig) by lra.
  apply Rltb_false_iff in C2. rewrite C2. reflexivity.
Qed.

(** C9.  When [fxyLimit < SignificantReal] the damper-only candidate
    [fricLimit] is the zero vector.  Otherwise it is [-kvFriction * vxy] when
    that is no longer than [fxyLimit], and [-kvFriction * vxy] scaled by the
    positive factor [fxyLimit / |kvFriction * vxy|], of length exactly
    [fxyLimit], when it is longer.  No division by a quantity below the
    threshold takes place: the computation with guarded divisions never
    fails and returns the same vector.  This [fricLimit] is the one blended
    into the damping friction. *)
Theorem damper_candidate_guarded :
  forall sig impl state,
    0 < sig ->
    let data := getData (realizeSubsystemDynamicsImpl sig impl state) in
    let fxyLimit := ESD.fxyLimit data in
    let fricDampSpr := vscale (- getViscosity (params impl)) (ESD.vxy data) in
    let fricLimit := frictionLimit sig fricDampSpr fxyLimit in
    frictionLimitGuarded sig fricDampSpr fxyLimit = Some fricLimit /\
    ((fxyLimit < sig /\ fricLimit = vfill 0) \/
     (~ fxyLimit < sig /\ norm fricDampSpr <= fxyLimit /\
      fricLimit = fricDampSpr) \/
     (~ fxyLimit < sig /\ norm fricDampSpr > fxyLimit /\
      fricLimit = vscale (fxyLimit / norm fricDampSpr) fricDampSpr /\
      0 < fxyLimit / norm fricDampSpr /\
      norm fricLimit = fxyLimit)) /\
    (let fricDampSpr' :=
       snd (fst (frictionSpring (getElasticity (params impl)) (ESD.pxy data)
                   (getSprZero state) fricDampSpr fxyLimit)) in
     ESD.fricDamp data
       = (fricDampSpr'
          + vscale (boundSliding (getSliding state))
              (fricLimit - fricDampSpr'))%V).
Proof.
  intros sig impl state Hsig data fxyLimit fricDampSpr fricLimit.
  split; [apply frictionLimit_guarded|]. split.
  - destruct (frictionLimit_cases sig fricDampSpr fxyLimit)
      as [[H E] | [(H & Hn & E) | (H & Hn & E)]].
    + left. split; assumption.
    + right; left. repeat split; assumption.
    + right; right.
      assert (HL : 0 < fxyLimit) by lra.
      assert (Hpos : 0 < norm fricDampSpr) by lra.
      repeat split; try assumption.
      * apply Rmult_lt_0_compat; [exact HL|]. now apply Rinv_0_lt_compat.
      * unfold fricLimit. rewrite E. apply norm_capped; lra.
  - destruct (dynamics_friction sig impl state) as (_ & _ & _ & _ & _ & HD & _).
    exact HD.
Qed.

(** A contact point to which C9 applies. *)
Lemma damper_candidate_guarded_witness :
  0 < Example.SignificantReal /\
  frictionLimitGuarded Example.SignificantReal
    (vscale (- getViscosity (params Example.impl))
       (ESD.vxy (getData (realizeSubsystemDynamicsImpl
                            Example.SignificantReal Example.impl
                            Example.atRest))))
    (ESD.fxyLimit (getData (realizeSubsystemDynamicsImpl
                              Example.SignificantReal Example.impl
                              Example.atRest)))
  = Some
      (frictionLimit Example.SignificantReal
         (vscale (- getViscosity (params Example.impl))
            (ESD.vxy (getData (realizeSubsystemDynamicsImpl
                                 Example.SignificantReal Example.impl
                                 Example.atRest))))
         (ESD.fxyLimit (getData (realizeSubsystemDynamicsImpl
                                   Example.SignificantReal Example.impl
                                   Example.atRest)))).
Proof.
  assert (H : 0 < Example.SignificantReal)
    by (unfold Example.SignificantReal; lra).
  split; [exact H|].
  exact (proj1 (damper_candidate_guarded Example.SignificantReal Example.impl
                  Example.atRest H)).
Defined.

(* ------------------------------------------------------------------------- *)
(** ** The anchored-spring candidate and the spring zero *)

Lemma frictionSpring_cases (kpFric : Real) (pxy p0 fricDampSpr : Vec3)
    (fxyLimit : Real) :
  let fricElasSpr := vscale (- kpFric) (pxy - p0) in
  let fxySpr := norm (fricElasSpr + fricDampSpr) in
  let scale := fxyLimit / fxySpr in
  (fxySpr > fxyLimit /\
   frictionSpring kpFric pxy p0 fricDampSpr fxyLimit
     = (true, vscale scale fricElasSpr, vscale scale fricDampSpr,
        (vscale scale fricElasSpr + vscale scale fricDampSpr)%V)) \/
  (fxySpr <= fxyLimit /\
   frictionSpring kpFric pxy p0 fricDampSpr fxyLimit
     = (false, fricElasSpr, fricDampSpr, (fricElasSpr + fricDampSpr)%V)).
Proof.
  cbv zeta. unfold frictionSpring. cmp.
  - left. split; [assumption | reflexivity].
  - right. split; [assumption | reflexivity].
Qed.

(** The elastic candidate stays in the contact plane when the spring zero
    and the projected station do. *)
Lemma frictionSpring_elastic_inPlane (kpFric : Real)
    (pxy p0 fricDampSpr : Vec3) (fxyLimit : Real) :
  inPlane pxy -> inPlane p0 ->
  inPlane (snd (fst (fst (frictionSpring kpFric pxy p0 fricDampSpr fxyLimit)))).
Proof.
  unfold inPlane. intros Hp H0.
  destruct (frictionSpring_cases kpFric pxy p0 fricDampSpr fxyLimit)
    as [[_ E] | [_ E]]; rewrite E; simpl; rewrite Hp, H0; ring.
Qed.

(** C3.  A force evaluation stores, as the spring zero effective from the
    next step on, [pxy + fricElas / kpFriction] with its normal component
    set to zero; recomputing [-kpFriction * (pxy - newAnchor)] gives back
    the elastic friction force [fricElas] applied in this step.  The spring
    zero read by the evaluation lies in the contact plane (an invariant of
    the state) and [kpFriction], by which the update divides, is not zero. *)
Theorem anchor_update_consistent :
  forall sig impl state,
    inPlane (getSprZero state) ->
    getElasticity (params impl) <> 0 ->
    let kpFric := getElasticity (params impl) in
    let state' := realizeSubsystemDynamicsImpl sig impl state in
    let data := getData state' in
    let newAnchor := getSprZeroInCache state' in
    newAnchor = vset2 (ESD.pxy data + vdiv (ESD.fricElas data) kpFric) 0 /\
    inPlane newAnchor /\
    getSprZero (autoUpdateDiscreteVariables state') = newAnchor /\
    vscale (- kpFric) (ESD.pxy data - newAnchor) = ESD.fricElas data.
Proof.
  intros sig impl state Hp0 Hkp kpFric state' data newAnchor.
  pose proof (dynamics_sprZeroInCache sig impl state) as HA.
  cbv zeta in HA. fold kpFric state' data newAnchor in HA.
  split; [exact HA|].
  split; [rewrite HA; reflexivity|].
  split.
  { unfold autoUpdateDiscreteVariables.
    destruct (dynamics_frame sig impl state) as (_ & _ & _ & _ & _ & HR).
    fold state' in HR. rewrite HR. reflexivity. }
  assert (Hpxy : inPlane (ESD.pxy data))
    by apply (dynamics_tangent sig impl state).
  assert (HE : inPlane (ESD.fricElas data)).
  { destruct (dynamics_friction sig impl state) as (_ & _ & _ & _ & HE & _).
    fold state' data in HE. rewrite HE.
    pose proof (frictionSpring_elastic_inPlane kpFric (ESD.pxy data)
                  (getSprZero state)
                  (vscale (- getViscosity (params impl)) (ESD.vxy data))
                  (ESD.fxyLimit data) Hpxy Hp0) as H.
    unfold inPlane in *. simpl. fold kpFric. rewrite H. ring. }
  rewrite HA. unfold inPlane in *.
  apply vec_eq; simpl; try (field; exact Hkp).
  rewrite HE, Hpxy. ring.
Qed.

(** A state to which C3 applies: freshly realized topology, the station
    displaced from the spring zero. *)
Lemma anchor_update_consistent_witness :
  inPlane (getSprZero Example.displaced) /\
  getElasticity (params Example.impl) <> 0 /\
  let state' :=
    realizeSubsystemDynamicsImpl Example.SignificantReal Example.impl
      Example.displaced in
  vscale (- getElasticity (params Example.impl))
    (ESD.pxy (getData state') - getSprZeroInCache state')
  = ESD.fricElas (getData state').
Proof.
  assert (H1 : inPlane (getSprZero Example.displaced)) by reflexivity.
  assert (H2 : getElasticity (params Example.impl) <> 0) by (simpl; lra).
  split; [exact H1|]. split; [exact H2|].
  exact (proj2 (proj2 (proj2
    (anchor_update_consistent Example.SignificantReal Example.impl
       Example.displaced H1 H2)))).
Defined.

(* ------------------------------------------------------------------------- *)
(** ** Saturation of the friction limit *)

Section Saturation.

Variable sig : Real.
Variable impl : ExponentialSpringForceImpl.

Local Abbreviation dyn := (realizeSubsystemDynamicsImpl sig impl).

(** Position, velocity and their split, in terms of the station kinematics. *)
Lemma dynamics_kinematics (state : State) :
  let data := getData (dyn state) in
  let p :=
    shiftBaseStationToFrame (contactPlane impl)
      (findStationLocationInGround state (station impl)) in
  let v :=
    xformBaseVecToFrame (contactPlane impl)
      (findStationVelocityInGround state (station impl)) in
  ESD.p data = p /\
  ESD.pz data = e2 p /\
  ESD.pxy data = vset2 p 0 /\
  ESD.vz data = e2 v /\
  ESD.vxy data
    = mkVec3 (if Rltb (Rabs (e0 v)) sig then 0 else e0 v)
        (if Rltb (Rabs (e1 v)) sig then 0 else e1 v) 0.
Proof.
  unfold realizeSubsystemDynamicsImpl; simpl.
  destruct (frictionSpring _ _ _ _ _) as [[[lr fe] fd] fs]; simpl. clear.
  repeat split;
    destruct (Rltb (Rabs (e0 _)) sig); simpl;
    destruct (Rltb (Rabs (e1 _)) sig); reflexivity.
Qed.

(** The normal force, in terms of the normal displacement and velocity. *)
Lemma dynamics_normal (state : State) :
  let data := getData (dyn state) in
  ESD.fzElas data
    = d1 (params impl)
      * exp (- d2 (params impl) * (ESD.pz data - d0 (params impl))) /\
  ESD.fzDamp data
    = - getNormalViscosity (params impl) * ESD.vz data * ESD.fzElas data /\
  ESD.fz data = ClampAboveZero (ESD.fzElas data + ESD.fzDamp data) 100000.
Proof.
  unfold realizeSubsystemDynamicsImpl; simpl.
  destruct (frictionSpring _ _ _ _ _) as [[[lr fe] fd] fs]; simpl.
  repeat split.
Qed.

(** With ordered non-negative coefficients the Coulomb limit is not
    negative. *)
Lemma fxyLimit_nonneg (state : State) :
  CoefficientsInv state -> 0 <= ESD.fxyLimit (getData (dyn state)).
Proof.
  intros [H0 H1].
  destruct (dynamics_friction sig impl state) as (Hmu & Hlim & Hfz & _).
  rewrite Hlim, Hmu.
  pose proof (boundSliding_bounds (getSliding state)) as [Hs0 Hs1].
  apply Rmult_le_pos; [|exact Hfz].
  set (s := boundSliding (getSliding state)) in *.
  replace (getMuStatic state - s * (getMuStatic state - getMuKinetic state))
    with ((1 - s) * getMuStatic state + s * getMuKinetic state) by ring.
  apply Rplus_le_le_0_compat; apply Rmult_le_pos; lra.
Qed.

End Saturation.

Lemma vscale_vadd (s : Real) (a b : Vec3) :
  vscale s (a + b) = (vscale s a + vscale s b)%V.
Proof. unfold vscale, vadd; simpl. f_equal; ring. Qed.

(** A convex combination of two vectors no longer than [L] is no longer
    than [L]. *)
Lemma norm_blend_le (s L : Real) (a b : Vec3) :
  0 <= s <= 1 -> norm a <= L -> norm b <= L ->
  norm (vscale (1 - s) a + vscale s b) <= L.
Proof.
  intros [Hs0 Hs1] Ha Hb.
  eapply Rle_trans; [apply norm_triangle|].
  rewrite !norm_vscale, !Rabs_pos_eq by lra.
  pose proof (norm_nonneg a). pose proof (norm_nonneg b). nra.
Qed.

(** C2, amended.  When the anchored-spring candidate satisfies
    [|fricElasSpr + fricDampSpr| > fxyLimit], both parts are scaled by the
    same non-negative factor [fxyLimit / |fricSpr|], [limitReached] is set,
    and the scaled candidate has magnitude exactly [fxyLimit].  The friction
    returned is the blend
    [(1 - sliding) * fricSpr + sliding * fricLimit] of that candidate with
    the capped damper: its magnitude is [fxyLimit] when [sliding = 0], and
    never exceeds [fxyLimit]. *)
Theorem friction_saturation_scaling :
  forall sig impl state,
    CoefficientsInv state ->
    let data := getData (realizeSubsystemDynamicsImpl sig impl state) in
    let sliding := boundSliding (getSliding state) in
    let kpFric := getElasticity (params impl) in
    let fxyLimit := ESD.fxyLimit data in
    let fricDampSpr := vscale (- getViscosity (params impl)) (ESD.vxy data) in
    let fricElasSpr := vscale (- kpFric) (ESD.pxy data - getSprZero state) in
    let fxySpr := norm (fricElasSpr + fricDampSpr) in
    let scale := fxyLimit / fxySpr in
    let fricSpr := (vscale scale fricElasSpr + vscale scale fricDampSpr)%V in
    let fricLimit := frictionLimit sig fricDampSpr fxyLimit in
    fxySpr > fxyLimit ->
    frictionSpring kpFric (ESD.pxy data) (getSprZero state) fricDampSpr
      fxyLimit
      = (true, vscale scale fricElasSpr, vscale scale fricDampSpr, fricSpr) /\
    ESD.limitReached data = true /\
    0 <= scale /\
    norm fricSpr = fxyLimit /\
    ESD.fric data = (vscale (1 - sliding) fricSpr + vscale sliding fricLimit)%V
    /\
    (sliding = 0 -> norm (ESD.fric data) = fxyLimit) /\
    norm (ESD.fric data) <= fxyLimit.
Proof.
  intros sig impl state Hinv data sliding kpFric fxyLimit fricDampSpr
    fricElasSpr fxySpr scale fricSpr fricLimit Hsat.
  pose proof (fxyLimit_nonneg sig impl state Hinv) as HL.
  fold data fxyLimit in HL.
  destruct (dynamics_friction sig impl state)
    as (_ & _ & _ & Hlr & HE & HD & HF).
  fold data sliding kpFric fxyLimit fricDampSpr in Hlr, HE, HD, HF.
  destruct (frictionSpring_cases kpFric (ESD.pxy data) (getSprZero state)
              fricDampSpr fxyLimit) as [[_ E] | [Hle _]];
    [| fold fricElasSpr fxySpr in Hle; lra].
  fold fricElasSpr fxySpr scale fricSpr in E.
  rewrite E in Hlr, HE, HD; simpl in Hlr, HE, HD.
  assert (Hn : norm fricSpr = fxyLimit).
  { unfold fricSpr. rewrite <- vscale_vadd. apply norm_capped; assumption. }
  assert (Hfric : ESD.fric data
            = (vscale (1 - sliding) fricSpr + vscale sliding fricLimit)%V).
  { rewrite HF, HE, HD. fold fricLimit. unfold fricSpr.
    apply vec_eq; simpl; ring. }
  split; [exact E|]. split; [exact Hlr|].
  split.
  { unfold scale. apply Rmult_le_pos; [exact HL|].
    left. apply Rinv_0_lt_compat. lra. }
  split; [exact Hn|]. split; [exact Hfric|].
  split.
  - intros Hs. rewrite Hfric, Hs.
    replace (1 - 0) with 1 by ring.
    rewrite vscale_1, vscale_0.
    replace (fricSpr + vfill 0)%V with fricSpr
      by (apply vec_eq; simpl; ring).
    exact Hn.
  - rewrite Hfric. apply norm_blend_le.
    + apply boundSliding_bounds.
    + rewrite Hn. lra.
    + apply frictionLimit_norm_le. exact HL.
Qed.

(** The example contact point, displaced from its spring zero, evaluated. *)
Lemma displaced_evaluated :
  let state := Example.displaced in
  let data :=
    getData (realizeSubsystemDynamicsImpl Example.SignificantReal
               Example.impl state) in
  getMuKinetic state = 1 / 2 /\ getMuStatic state = 1 / 2 /\
  getSprZero state = vfill 0 /\
  boundSliding (getSliding state) = 1 /\
  ESD.pxy data = mkVec3 1 0 0 /\
  ESD.vxy data = vfill 0 /\
  ESD.fxyLimit data = 1 / 2.
Proof.
  intros state data.
  assert (Hk : getMuKinetic state = 1 / 2).
  { unfold state, Example.displaced, Example.impl, getMuKinetic,
      realizeSubsystemTopologyImpl, newExponentialSpringForceImpl; simpl.
    cmp; lra. }
  assert (Hs : getMuStatic state = 1 / 2).
  { unfold state, Example.displaced, Example.impl, getMuStatic,
      realizeSubsystemTopologyImpl, newExponentialSpringForceImpl; simpl.
    cmp; lra. }
  assert (Hb : boundSliding (getSliding state) = 1).
  { change (getSliding state) with 1. unfold boundSliding. cmp; lra. }
  destruct (dynamics_kinematics Example.SignificantReal Example.impl state)
    as (_ & Hpz & Hpxy & Hvz & Hvxy).
  fold data in Hpz, Hpxy, Hvz, Hvxy.
  assert (Hvxy' : ESD.vxy data = vfill 0).
  { rewrite Hvxy. unfold vfill. simpl.
    destruct (Rltb (Rabs 0) Example.SignificantReal); reflexivity. }
  destruct (dynamics_normal Example.SignificantReal Example.impl state)
    as (Hel & Hda & Hfz).
  fold data in Hel, Hda, Hfz.
  assert (Hel' : ESD.fzElas data = 1).
  { rewrite Hel, Hpz. simpl.
    replace (- (1) * (0 - 0)) with 0 by ring. rewrite exp_0. ring. }
  assert (Hfz' : ESD.fz data = 1).
  { rewrite Hfz, Hda, Hvz, Hel'. simpl. unfold ClampAboveZero. cmp; lra. }
  destruct (dynamics_friction Example.SignificantReal Example.impl state)
    as (Hmu & Hlim & _).
  fold data in Hmu, Hlim.
  repeat split; auto.
  rewrite Hlim, Hmu, Hb, Hs, Hk, Hfz'. lra.
Qed.

(** C2 as stated fails.  Right after topology realization ([sliding = 1])
    the station rests one unit away from the spring zero: the spring
    candidate has magnitude 1, above the limit 1/2, so the limit is
    saturated, yet the friction returned is the capped damper alone, the
    zero vector, and not a vector of magnitude [fxyLimit]. *)
Lemma friction_saturated_magnitude_below_limit :
  let state := Example.displaced in
  let data :=
    getData (realizeSubsystemDynamicsImpl Example.SignificantReal
               Example.impl state) in
  let fricDampSpr :=
    vscale (- getViscosity (params Example.impl)) (ESD.vxy data) in
  let fricElasSpr :=
    vscale (- getElasticity (params Example.impl))
      (ESD.pxy data - getSprZero state) in
  norm (fricElasSpr + fricDampSpr) > ESD.fxyLimit data /\
  ESD.limitReached data = true /\
  ESD.fxyLimit data = 1 / 2 /\
  norm (ESD.fric data) = 0 /\
  norm (ESD.fric data) <> ESD.fxyLimit data.
Proof.
  intros state data fricDampSpr fricElasSpr.
  destruct displaced_evaluated as (Hk & Hs & Hp0 & Hb & Hpxy & Hvxy & HL).
  fold state data in Hk, Hs, Hp0, Hb, Hpxy, Hvxy, HL.
  assert (Hsum : (fricElasSpr + fricDampSpr)%V = mkVec3 (-1) 0 0).
  { unfold fricElasSpr, fricDampSpr. rewrite Hpxy, Hvxy, Hp0.
    apply vec_eq; simpl; ring. }
  assert (Hnorm : norm (fricElasSpr + fricDampSpr) = 1).
  { rewrite Hsum. unfold norm, normSqr; simpl.
    replace (-1 * -1 + 0 * 0 + 0 * 0) with 1 by ring. apply sqrt_1. }
  assert (Hsat : norm (fricElasSpr + fricDampSpr) > ESD.fxyLimit data)
    by (rewrite Hnorm, HL; lra).
  assert (Hinv : CoefficientsInv state)
    by (unfold CoefficientsInv; rewrite Hk, Hs; lra).
  destruct (dynamics_friction Example.SignificantReal Example.impl state)
    as (_ & _ & _ & Hlr & HE & HD & HF).
  fold state data in Hlr, HE, HD, HF. rewrite Hb in HE, HD.
  destruct (frictionSpring_cases (getElasticity (params Example.impl))
              (ESD.pxy data) (getSprZero state) fricDampSpr
              (ESD.fxyLimit data)) as [[_ E] | [Hle _]];
    [| fold fricElasSpr in Hle; lra].
  fold fricDampSpr in Hlr, HE, HD.
  rewrite E in Hlr, HE, HD; simpl in Hlr, HE, HD.
  assert (Hd0 : fricDampSpr = vfill 0).
  { unfold fricDampSpr. rewrite Hvxy. apply vec_eq; simpl; ring. }
  assert (Hlimit : frictionLimit Example.SignificantReal fricDampSpr
                     (ESD.fxyLimit data) = vfill 0).
  { destruct (frictionLimit_cases Example.SignificantReal fricDampSpr
                (ESD.fxyLimit data)) as [[_ F] | [(_ & _ & F) | (_ & _ & F)]];
      rewrite F; [reflexivity | exact Hd0 |].
    rewrite Hd0. apply vec_eq; simpl; ring. }
  assert (Hfric : ESD.fric data = vfill 0).
  { rewrite HF, HE, HD, Hlimit. apply vec_eq; simpl; ring. }
  split; [exact Hsat|]. split; [exact Hlr|]. split; [exact HL|].
  rewrite Hfric, norm_zero, HL. split; [reflexivity | lra].
Qed.

(** A state to which the amended C2 applies: the same displaced station. *)
Lemma friction_saturation_scaling_witness :
  let state := Example.displaced in
  let data :=
    getData (realizeSubsystemDynamicsImpl Example.SignificantReal
               Example.impl state) in
  let fricDampSpr :=
    vscale (- getViscosity (params Example.impl)) (ESD.vxy data) in
  let fricElasSpr :=
    vscale (- getElasticity (params Example.impl))
      (ESD.pxy data - getSprZero state) in
  CoefficientsInv state /\
  norm (fricElasSpr + fricDampSpr) > ESD.fxyLimit data /\
  norm (ESD.fric data) <= ESD.fxyLimit data.
Proof.
  intros state data fricDampSpr fricElasSpr.
  assert (Hinv : CoefficientsInv state).
  { destruct displaced_evaluated as (Hk & Hs & _).
    fold state in Hk, Hs. unfold CoefficientsInv. rewrite Hk, Hs. lra. }
  assert (Hsat : norm (fricElasSpr + fricDampSpr) > ESD.fxyLimit data).
  { destruct displaced_evaluated as (_ & _ & Hp0 & _ & Hpxy & Hvxy & HL).
    fold state data in Hp0, Hpxy, Hvxy, HL.
    replace (fricElasSpr + fricDampSpr)%V with (mkVec3 (-1) 0 0).
    - unfold norm, normSqr; simpl.
      replace (-1 * -1 + 0 * 0 + 0 * 0) with 1 by ring.
      rewrite sqrt_1, HL. lra.
    - unfold fricElasSpr, fricDampSpr. rewrite Hpxy, Hvxy, Hp0.
      apply vec_eq; simpl; ring. }
  split; [exact Hinv|]. split; [exact Hsat|].
  exact (proj2 (proj2 (proj2 (proj2 (proj2 (proj2
    (friction_saturation_scaling Example.SignificantReal Example.impl state
       Hinv Hsat))))))).
Defined.

(* ------------------------------------------------------------------------- *)
(** ** The Coulomb limit bounds the friction returned *)

Lemma norm_zero_vec (a : Vec3) : norm a <= 0 -> a = vfill 0.
Proof.
  intros H. pose proof (norm_nonneg a) as H0.
  assert (Hn : norm a = 0) by lra.
  pose proof (norm_norm a) as Hs. rewrite Hn in Hs.
  unfold normSqr in Hs. destruct a as [x y z]; simpl in *.
  assert (x = 0) by nra. assert (y = 0) by nra. assert (z = 0) by nra.
  subst. reflexivity.
Qed.

Lemma frictionSpring_norm_le (kpFric : Real) (pxy p0 fricDampSpr : Vec3)
    (fxyLimit : Real) :
  0 <= fxyLimit ->
  let spring := frictionSpring kpFric pxy p0 fricDampSpr fxyLimit in
  norm (snd (fst (fst spring)) + snd (fst spring)) <= fxyLimit.
Proof.
  intros HL.
  destruct (frictionSpring_cases kpFric pxy p0 fricDampSpr fxyLimit)
    as [[Hgt E] | [Hle E]]; cbv zeta; rewrite E; simpl.
  - rewrite <- vscale_vadd, norm_capped; [lra | exact HL | exact Hgt].
  - exact Hle.
Qed.

Section Resultant.

Variable sig : Real.
Variable impl : ExponentialSpringForceImpl.

Local Abbreviation dyn := (realizeSubsystemDynamicsImpl sig impl).

(** The resultant part of the data. *)
Lemma dynamics_resultant (state : State) :
  let data := getData (dyn state) in
  ESD.p_G data = findStationLocationInGround state (station impl) /\
  ESD.v_G data = findStationVelocityInGround state (station impl) /\
  ESD.fxy data = norm (ESD.fric data) /\
  ESD.f data = vset2 (ESD.fric data) (ESD.fz data) /\
  ESD.f_G data = xformFrameVecToBase (contactPlane impl) (ESD.f data).
Proof.
  unfold realizeSubsystemDynamicsImpl; simpl.
  destruct (frictionSpring _ _ _ _ _) as [[[lr fe] fd] fs]; simpl.
  repeat split.
Qed.

Lemma dynamics_fric_bound (state : State) :
  let data := getData (dyn state) in
  0 <= ESD.fxyLimit data -> norm (ESD.fric data) <= ESD.fxyLimit data.
Proof.
  intros data HL.
  destruct (dynamics_friction sig impl state)
    as (_ & _ & _ & _ & HE & HD & HF).
  fold data in HE, HD, HF.
  set (s := boundSliding (getSliding state)) in *.
  set (fd0 := vscale (- getViscosity (params impl)) (ESD.vxy data)) in *.
  set (spring := frictionSpring (getElasticity (params impl)) (ESD.pxy data)
                   (getSprZero state) fd0 (ESD.fxyLimit data)) in *.
  assert (Hfric : ESD.fric data
            = (vscale (1 - s) (snd (fst (fst spring)) + snd (fst spring))
               + vscale s (frictionLimit sig fd0 (ESD.fxyLimit data)))%V).
  { rewrite HF, HE, HD. apply vec_eq; simpl; ring. }
  rewrite Hfric. apply norm_blend_le.
  - apply boundSliding_bounds.
  - apply frictionSpring_norm_le. exact HL.
  - apply frictionLimit_norm_le. exact HL.
Qed.


End Resultant.



(** X2.  When the damping part of the normal force cancels the elastic part
    or more ([fzElas + fzDamp <= 0], the station leaving the plane fast
    enough), the evaluation returns no force at all: the normal force is
    clamped to 0, the friction limit is 0, and the friction and the
    resultant in the plane frame are the zero vector. *)
Theorem no_normal_force_no_friction :
  forall sig impl state,
    let data := getData (realizeSubsystemDynamicsImpl sig impl state) in
    ESD.fzElas data + ESD.fzDamp data <= 0 ->
    ESD.fz data = 0 /\ ESD.fxyLimit data = 0 /\
    ESD.fric data = vfill 0 /\ ESD.f data = vfill 0.
Proof.
  intros sig impl state data Hneg.
  destruct (dynamics_normal sig impl state) as (_ & _ & Hfz).
  fold data in Hfz.
  assert (Hz : ESD.fz data = 0).
  { rewrite Hfz. unfold ClampAboveZero. cmp; lra. }
  destruct (dynamics_friction sig impl state) as (_ & Hlim & _).
  fold data in Hlim.
  assert (HL : ESD.fxyLimit data = 0) by (rewrite Hlim, Hz; ring).
  assert (Hfric : ESD.fric data = vfill 0).
  { apply norm_zero_vec. rewrite <- HL.
    apply (dynamics_fric_bound sig impl state). fold data. lra. }
  destruct (dynamics_resultant sig impl state) as (_ & _ & _ & Hf & _).
  fold data in Hf.
  repeat split; auto. rewrite Hf, Hfric, Hz. reflexivity.
Qed.

Lemma no_normal_force_no_friction_witness :
  let data :=
    getData (realizeSubsystemDynamicsImpl Example.SignificantReal
               Example.impl Example2.separating) in
  ESD.fzElas data + ESD.fzDamp data <= 0 /\ ESD.f data = vfill 0.
Proof.
  intros data.
  assert (H : ESD.fzElas data + ESD.fzDamp data <= 0).
  { destruct (dynamics_kinematics Example.SignificantReal Example.impl
                Example2.separating) as (_ & Hpz & _ & Hvz & _).
    destruct (dynamics_normal Example.SignificantReal Example.impl
                Example2.separating) as (Hel & Hda & _).
    fold data in Hpz, Hvz, Hel, Hda.
    assert (Hel' : ESD.fzElas data = 1).
    { rewrite Hel, Hpz. simpl.
      replace (- (1) * (0 - 0)) with 0 by ring. rewrite exp_0. ring. }
    rewrite Hda, Hvz, Hel'. simpl. lra. }
  split; [exact H|].
  exact (proj2 (proj2 (proj2
    (no_normal_force_no_friction Example.SignificantReal Example.impl
       Example2.separating H)))).
Defined.

(* ------------------------------------------------------------------------- *)
(** ** What the realizations read *)

Lemma state_eq (a b : State) :
  st_mus a = st_mus b -> st_muk a = st_muk b ->
  st_sprZero a = st_sprZero b ->
  st_sprZeroInCache a = st_sprZeroInCache b ->
  st_sprZeroCacheRealized a = st_sprZeroCacheRealized b ->
  st_z a = st_z b -> st_zDot a = st_zDot b -> st_data a = st_data b ->
  findStationLocationInGround a = findStationLocationInGround b ->
  findStationVelocityInGround a = findStationVelocityInGround b ->
  findStationAccelerationInGround a = findStationAccelerationInGround b ->
  a = b.
Proof. destruct a, b; simpl; intros; subst; reflexivity. Qed.

Section Reads.

Variable sig : Real.
Variable impl : ExponentialSpringForceImpl.

Local Abbreviation dyn := (realizeSubsystemDynamicsImpl sig impl).

Lemma dynamics_kinematics_frame (state : State) :
  findStationLocationInGround (dyn state) = findStationLocationInGround state
  /\
  findStationVelocityInGround (dyn state) = findStationVelocityInGround state
  /\
  findStationAccelerationInGround (dyn state)
    = findStationAccelerationInGround state.
Proof.
  unfold realizeSubsystemDynamicsImpl; simpl.
  destruct (frictionSpring _ _ _ _ _) as [[[lr fe] fd] fs]; simpl.
  repeat split.
Qed.

(** The data and the new spring zero are functions of the entries the
    evaluation reads: the coefficients, the spring zero, the sliding state
    and the station position and velocity. *)
Lemma dynamics_reads (a b : State) :
  st_mus a = st_mus b -> st_muk a = st_muk b ->
  st_sprZero a = st_sprZero b -> st_z a = st_z b ->
  findStationLocationInGround a = findStationLocationInGround b ->
  findStationVelocityInGround a = findStationVelocityInGround b ->
  st_data (dyn a) = st_data (dyn b) /\
  st_sprZeroInCache (dyn a) = st_sprZeroInCache (dyn b).
Proof.
  destruct a, b; simpl. intros; subst.
  unfold realizeSubsystemDynamicsImpl; simpl.
  destruct (frictionSpring _ _ _ _ _) as [[[lr fe] fd] fs]; simpl.
  split; reflexivity.
Qed.

End Reads.

(** X3.  Evaluating the forces a second time, with nothing advanced in
    between, computes the same data and the same pending spring zero as the
    first evaluation, and both evaluations leave the coefficients, the
    spring zero and the sliding state as they were.  (The force that each
    evaluation adds into the rigid-body forces of the system is no part of
    this statement.) *)
Theorem dynamics_sample_idempotent :
  forall sig impl state,
    let s1 := realizeSubsystemDynamicsImpl sig impl state in
    let s2 := realizeSubsystemDynamicsImpl sig impl s1 in
    getData s2 = getData s1 /\
    getSprZeroInCache s2 = getSprZeroInCache s1 /\
    getSprZero s2 = getSprZero state /\
    getSliding s2 = getSliding state /\
    getMuStatic s2 = getMuStatic state /\
    getMuKinetic s2 = getMuKinetic state.
Proof.
  intros sig impl state s1 s2.
  destruct (dynamics_frame sig impl state) as (E1 & E2 & E3 & E4 & _).
  destruct (dynamics_kinematics_frame sig impl state) as (K1 & K2 & _).
  fold s1 in E1, E2, E3, E4, K1, K2.
  destruct (dynamics_frame sig impl s1) as (F1 & F2 & F3 & F4 & _).
  fold s2 in F1, F2, F3, F4.
  destruct (dynamics_reads sig impl s1 state E1 E2 E3 E4 K1 K2) as [D1 D2].
  fold s1 s2 in D1, D2.
  unfold getData, getSprZeroInCache, getSprZero, getSliding, getMuStatic,
    getMuKinetic.
  repeat split; congruence.
Qed.

(* ------------------------------------------------------------------------- *)
(** ** The sliding derivative *)

Lemma slidingDot_values (sig : Real) (impl : ExponentialSpringForceImpl)
    (state : State) :
  let tau := getSlidingTimeConstant (params impl) in
  let s := getSliding state in
  let sDot :=
    getSlidingDotInCache (realizeSubsystemAccelerationImpl sig impl state) in
  sDot = (1 - s) / tau \/ sDot = - s / tau \/ sDot = 0.
Proof.
  unfold realizeSubsystemAccelerationImpl, getSlidingDotInCache,
    updSlidingDotInCache, getSliding; simpl.
  destruct (ESD.limitReached _ || Rltb _ sig).
  - left. unfold Rdiv; ring.
  - destruct (negb _ && Rltb _ 0.001 && Rltb _ 0.001).
    + right; left. unfold Rdiv; ring.
    + right; right. reflexivity.
Qed.

(** X4.  The derivative of the sliding state is a function of the sliding
    state, the time constant and four cached quantities ([limitReached],
    [vxy], [vz], [fz]) only.  In particular it does not depend on the
    acceleration of the station nor on the settle velocity, although both
    are fetched. *)
Theorem sliding_derivative_reads :
  forall sig impl1 impl2 state1 state2,
    getSlidingTimeConstant (params impl1)
      = getSlidingTimeConstant (params impl2) ->
    getSliding state1 = getSliding state2 ->
    ESD.limitReached (getData state1) = ESD.limitReached (getData state2) ->
    ESD.vxy (getData state1) = ESD.vxy (getData state2) ->
    ESD.vz (getData state1) = ESD.vz (getData state2) ->
    ESD.fz (getData state1) = ESD.fz (getData state2) ->
    getSlidingDotInCache (realizeSubsystemAccelerationImpl sig impl1 state1)
    = getSlidingDotInCache (realizeSubsystemAccelerationImpl sig impl2 state2).
Proof.
  intros sig impl1 impl2 state1 state2 Ht Hs Hl Hvxy Hvz Hfz.
  unfold realizeSubsystemAccelerationImpl, getSlidingDotInCache,
    updSlidingDotInCache, getSliding, getData in *; simpl.
  rewrite Ht, Hs, Hl, Hvxy, Hvz, Hfz. reflexivity.
Qed.

(** X5.  For a positive time constant the derivative never drives the
    sliding state out of [[0, 1]]: it is non-negative when [s <= 0],
    non-positive when [s >= 1], and within [[-1/tau, 1/tau]] when [s] is in
    [[0, 1]]. *)
Theorem sliding_derivative_points_inward :
  forall sig impl state,
    0 < getSlidingTimeConstant (params impl) ->
    let tau := getSlidingTimeConstant (params impl) in
    let s := getSliding state in
    let sDot :=
      getSlidingDotInCache (realizeSubsystemAccelerationImpl sig impl state) in
    (s <= 0 -> 0 <= sDot) /\
    (1 <= s -> sDot <= 0) /\
    (0 <= s <= 1 -> - (1 / tau) <= sDot <= 1 / tau).
Proof.
  intros sig impl state Htau tau s sDot.
  pose proof (slidingDot_values sig impl state) as H.
  fold tau s sDot in H. fold tau in Htau.
  assert (Hi : 0 < / tau) by now apply Rinv_0_lt_compat.
  unfold Rdiv in *.
  repeat split; intros; destruct H as [H | [H | H]]; rewrite H; nra.
Qed.

Lemma sliding_derivative_reads_witness :
  getSlidingTimeConstant (params Example.impl)
    = getSlidingTimeConstant (params Example2.impl') /\
  findStationAccelerationInGround Example.atRest (vfill 0)
    <> findStationAccelerationInGround Example2.accelerating (vfill 0) /\
  getSettleVelocity (params Example.impl)
    <> getSettleVelocity (params Example2.impl') /\
  getSlidingDotInCache
    (realizeSubsystemAccelerationImpl Example.SignificantReal Example.impl
       Example.atRest)
  = getSlidingDotInCache
      (realizeSubsystemAccelerationImpl Example.SignificantReal
         Example2.impl' Example2.accelerating).
Proof.
  split; [reflexivity|]. split.
  { simpl. intros H. apply (f_equal e0) in H. simpl in H. lra. }
  split.
  { simpl. lra. }
  apply (sliding_derivative_reads Example.SignificantReal Example.impl
           Example2.impl' Example.atRest Example2.accelerating);
    reflexivity.
Defined.

Lemma sliding_derivative_points_inward_witness :
  0 < getSlidingTimeConstant (params Example.impl) /\
  (1 <= getSliding Example.atRest ->
   getSlidingDotInCache
     (realizeSubsystemAccelerationImpl Example.SignificantReal Example.impl
        Example.atRest) <= 0).
Proof.
  assert (H : 0 < getSlidingTimeConstant (params Example.impl))
    by (simpl; lra).
  split; [exact H|].
  exact (proj1 (proj2
    (sliding_derivative_points_inward Example.SignificantReal Example.impl
       Example.atRest H))).
Defined.

(* ------------------------------------------------------------------------- *)
(** ** The spring zero after an evaluation *)

Section Anchor.

Variable sig : Real.
Variable impl : ExponentialSpringForceImpl.

Local Abbreviation dyn := (realizeSubsystemDynamicsImpl sig impl).
Local Abbreviation kpFric := (getElasticity (params impl)).

Lemma dynamics_fricElas_inPlane (state : State) :
  inPlane (getSprZero state) -> inPlane (ESD.fricElas (getData (dyn state))).
Proof.
  intros Hp0.
  destruct (dynamics_friction sig impl state) as (_ & _ & _ & _ & HE & _).
  destruct (dynamics_tangent sig impl state) as [Hpxy _].
  rewrite HE.
  pose proof (frictionSpring_elastic_inPlane kpFric
                (ESD.pxy (getData (dyn state))) (getSprZero state)
                (vscale (- getViscosity (params impl))
                   (ESD.vxy (getData (dyn state))))
                (ESD.fxyLimit (getData (dyn state))) Hpxy Hp0) as H.
  unfold inPlane in *. simpl. rewrite H. ring.
Qed.

(** The offset of the station from the new spring zero. *)
Lemma anchor_offset (state : State) :
  inPlane (getSprZero state) ->
  let data := getData (dyn state) in
  (ESD.pxy data - getSprZeroInCache (dyn state))%V
    = vscale (- / kpFric) (ESD.fricElas data).
Proof.
  intros Hp0 data.
  pose proof (dynamics_sprZeroInCache sig impl state) as HA.
  cbv zeta in HA. fold data in HA. rewrite HA.
  pose proof (dynamics_fricElas_inPlane state Hp0) as HE. fold data in HE.
  destruct (dynamics_tangent sig impl state) as [Hpxy _]. fold data in Hpxy.
  unfold inPlane in *.
  apply vec_eq; simpl; unfold Rdiv; try ring.
  rewrite HE, Hpxy. ring.
Qed.

Lemma dynamics_fzElas (state : State) :
  let data := getData (dyn state) in
  ESD.fzElas data
    = d1 (params impl)
      * exp (- d2 (params impl) * (ESD.pz data - d0 (params impl))).
Proof.
  unfold realizeSubsystemDynamicsImpl; simpl.
  destruct (frictionSpring _ _ _ _ _) as [[[lr fe] fd] fs]; reflexivity.
Qed.

End Anchor.

Lemma calcPotentialEnergy_eq (impl : ExponentialSpringForceImpl)
    (state : State) :
  calcPotentialEnergy impl state
  = ESD.fzElas (getData state) / d2 (params impl)
    + 0.5 * getElasticity (params impl)
      * normSqr (ESD.pxy (getData state) - getSprZeroInCache state).
Proof.
  unfold calcPotentialEnergy; simpl.
  rewrite Rmult_assoc, norm_norm. reflexivity.
Qed.

(** X6.  After a force evaluation whose spring zero lay in the contact
    plane, with [kpFriction] not zero, the potential energy is
    [fzElas/d2 + |fricElas|^2 / (2 * kpFriction)]: the tangential part is the
    strain energy of the elastic friction force actually applied.  With
    [d1 >= 0], [d2 > 0] and [kpFriction > 0] it is not negative. *)
Theorem potential_energy_after_evaluation :
  forall sig impl state,
    inPlane (getSprZero state) ->
    getElasticity (params impl) <> 0 ->
    let state' := realizeSubsystemDynamicsImpl sig impl state in
    let data := getData state' in
    calcPotentialEnergy impl state'
      = ESD.fzElas data / d2 (params impl)
        + normSqr (ESD.fricElas data) / (2 * getElasticity (params impl)) /\
    (0 <= d1 (params impl) -> 0 < d2 (params impl) ->
     0 < getElasticity (params impl) ->
     0 <= calcPotentialEnergy impl state').
Proof.
  intros sig impl state Hp0 Hkp state' data.
  assert (HE : calcPotentialEnergy impl state'
               = ESD.fzElas data / d2 (params impl)
                 + normSqr (ESD.fricElas data)
                   / (2 * getElasticity (params impl))).
  { rewrite calcPotentialEnergy_eq. fold data.
    pose proof (anchor_offset sig impl state Hp0) as HO.
    cbv zeta in HO. fold state' data in HO. rewrite HO.
    unfold normSqr, vscale; cbn [e0 e1 e2]. f_equal.
    replace 0.5 with (/ 2) by lra. field. exact Hkp. }
  split; [exact HE|].
  intros H1 H2 Hk. rewrite HE.
  pose proof (dynamics_fzElas sig impl state) as Hel.
  cbv zeta in Hel. fold state' data in Hel.
  assert (0 <= ESD.fzElas data).
  { rewrite Hel. apply Rmult_le_pos; [exact H1|]. left. apply exp_pos. }
  pose proof (normSqr_nonneg (ESD.fricElas data)).
  apply Rplus_le_le_0_compat; unfold Rdiv; apply Rmult_le_pos; auto;
    left; apply Rinv_0_lt_compat; lra.
Qed.

Lemma potential_energy_after_evaluation_witness :
  inPlane (getSprZero Example.displaced) /\
  getElasticity (params Example.impl) <> 0 /\
  let state' :=
    realizeSubsystemDynamicsImpl Example.SignificantReal Example.impl
      Example.displaced in
  calcPotentialEnergy Example.impl state'
  = ESD.fzElas (getData state') / d2 (params Example.impl)
    + normSqr (ESD.fricElas (getData state'))
      / (2 * getElasticity (params Example.impl)).
Proof.
  assert (H1 : inPlane (getSprZero Example.displaced)) by reflexivity.
  assert (H2 : getElasticity (params Example.impl) <> 0) by (simpl; lra).
  split; [exact H1|]. split; [exact H2|].
  exact (proj1 (potential_energy_after_evaluation Example.SignificantReal
                  Example.impl Example.displaced H1 H2)).
Defined.

Lemma frictionSpring_elastic_zero (kpFric : Real) (pxy fricDampSpr : Vec3)
    (fxyLimit : Real) :
  snd (fst (fst (frictionSpring kpFric pxy pxy fricDampSpr fxyLimit)))
  = vfill 0.
Proof.
  destruct (frictionSpring_cases kpFric pxy pxy fricDampSpr fxyLimit)
    as [[_ E] | [_ E]]; rewrite E; simpl; apply vec_eq; simpl; ring.
Qed.

Lemma anchor_of_zero_elastic (pxy : Vec3) (kpFric : Real) :
  inPlane pxy -> vset2 (pxy + vdiv (vfill 0) kpFric) 0 = pxy.
Proof.
  unfold inPlane. intros H. apply vec_eq; simpl; unfold Rdiv; try ring.
  symmetry. exact H.
Qed.

(** X7.  [resetSprZero] puts the spring zero at the projection of the
    station onto the contact plane.  A force evaluation that follows, the
    station not having moved, applies no elastic friction and proposes the
    same spring zero again.  [kpFriction], by which the update of the spring
    zero divides, is not zero. *)
Theorem reset_removes_elastic_friction :
  forall sig impl state,
    getElasticity (params impl) <> 0 ->
    let state0 := resetSprZero impl state in
    let state' := realizeSubsystemDynamicsImpl sig impl state0 in
    let data := getData state' in
    inPlane (getSprZero state0) /\
    getSprZero state0 = ESD.pxy data /\
    ESD.fricElas data = vfill 0 /\
    getSprZeroInCache state' = getSprZero state0.
Proof.
  intros sig impl state Hkp state0 state' data.
  destruct (dynamics_kinematics sig impl state0) as (_ & _ & Hpxy & _).
  fold state' data in Hpxy.
  assert (H0 : getSprZero state0 = ESD.pxy data)
    by (rewrite Hpxy; reflexivity).
  destruct (dynamics_friction sig impl state0) as (_ & _ & _ & _ & HE & _).
  fold state' data in HE. rewrite H0 in HE.
  rewrite frictionSpring_elastic_zero in HE.
  assert (HE0 : ESD.fricElas data = vfill 0)
    by (rewrite HE; apply vec_eq; simpl; ring).
  pose proof (dynamics_sprZeroInCache sig impl state0) as HA.
  cbv zeta in HA. fold state' data in HA.
  split; [reflexivity|]. split; [exact H0|]. split; [exact HE0|].
  rewrite HA, HE0, H0. apply anchor_of_zero_elastic.
  rewrite Hpxy. reflexivity.
Qed.

Lemma reset_removes_elastic_friction_witness :
  getElasticity (params Example.impl) <> 0 /\
  getSprZeroInCache
    (realizeSubsystemDynamicsImpl Example.SignificantReal Example.impl
       (resetSprZero Example.impl Example.displaced))
  = getSprZero (resetSprZero Example.impl Example.displaced).
Proof.
  assert (H : getElasticity (params Example.impl) <> 0) by (simpl; lra).
  split; [exact H|].
  exact (proj2 (proj2 (proj2
    (reset_removes_elastic_friction Example.SignificantReal Example.impl
       Example.displaced H)))).
Defined.

(** X8.  Stuck and within the limit: when the sliding state is at or below
    0 and the spring-damper force [-kpFriction * (pxy - p0) - kvFriction *
    vxy] does not exceed the friction limit, that force is the friction
    returned, [limitReached] is false, and the spring zero proposed for the
    next step is the current one: the anchor does not move.  The spring zero
    lies in the contact plane and [kpFriction] is not zero. *)
Theorem anchor_holds_when_stuck :
  forall sig impl state,
    inPlane (getSprZero state) ->
    getElasticity (params impl) <> 0 ->
    getSliding state <= 0 ->
    let state' := realizeSubsystemDynamicsImpl sig impl state in
    let data := getData state' in
    let fricDampSpr := vscale (- getViscosity (params impl)) (ESD.vxy data) in
    let fricElasSpr :=
      vscale (- getElasticity (params impl))
        (ESD.pxy data - getSprZero state) in
    norm (fricElasSpr + fricDampSpr) <= ESD.fxyLimit data ->
    ESD.limitReached data = false /\
    ESD.fricElas data = fricElasSpr /\
    ESD.fricDamp data = fricDampSpr /\
    ESD.fric data = (fricElasSpr + fricDampSpr)%V /\
    getSprZeroInCache state' = getSprZero state.
Proof.
  intros sig impl state Hp0 Hkp Hs state' data fricDampSpr fricElasSpr Hle.
  assert (Hb : boundSliding (getSliding state) = 0).
  { unfold boundSliding. cmp; lra. }
  destruct (dynamics_friction sig impl state)
    as (_ & _ & _ & Hlr & HE & HD & HF).
  fold state' data fricDampSpr in Hlr, HE, HD, HF.
  destruct (frictionSpring_cases (getElasticity (params impl)) (ESD.pxy data)
              (getSprZero state) fricDampSpr (ESD.fxyLimit data))
    as [[Hgt _] | [_ E]]; [fold fricElasSpr in Hgt; lra|].
  fold fricElasSpr in E.
  rewrite E, Hb in *; simpl in Hlr, HE, HD.
  assert (HE' : ESD.fricElas data = fricElasSpr)
    by (rewrite HE; apply vec_eq; simpl; ring).
  assert (HD' : ESD.fricDamp data = fricDampSpr)
    by (rewrite HD; apply vec_eq; simpl; ring).
  split; [exact Hlr|]. split; [exact HE'|]. split; [exact HD'|].
  split; [rewrite HF, HE', HD'; reflexivity|].
  pose proof (dynamics_sprZeroInCache sig impl state) as HA.
  cbv zeta in HA. fold state' data in HA.
  destruct (dynamics_tangent sig impl state) as [Hpxy _].
  fold state' data in Hpxy.
  rewrite HA, HE'. unfold fricElasSpr, inPlane in *.
  apply vec_eq; simpl; try (field; exact Hkp).
  symmetry; exact Hp0.
Qed.

(** X9.  Fully sliding: when the sliding state is at or above 1 the
    evaluation applies no elastic friction, the friction returned is the
    capped damper [fricLimit] alone, and the spring zero proposed for the
    next step is the projected station itself: the anchor follows the
    station.  [kpFriction], by which the update of the spring zero divides,
    is not zero. *)
Theorem anchor_follows_when_sliding :
  forall sig impl state,
    getElasticity (params impl) <> 0 ->
    1 <= getSliding state ->
    let state' := realizeSubsystemDynamicsImpl sig impl state in
    let data := getData state' in
    let fricDampSpr := vscale (- getViscosity (params impl)) (ESD.vxy data) in
    ESD.fricElas data = vfill 0 /\
    ESD.fric data = frictionLimit sig fricDampSpr (ESD.fxyLimit data) /\
    getSprZeroInCache state' = ESD.pxy data.
Proof.
  intros sig impl state Hkp Hs state' data fricDampSpr.
  assert (Hb : boundSliding (getSliding state) = 1).
  { unfold boundSliding. cmp; lra. }
  destruct (dynamics_friction sig impl state)
    as (_ & _ & _ & _ & HE & HD & HF).
  fold state' data fricDampSpr in HE, HD, HF.
  rewrite Hb in HE, HD.
  assert (HE' : ESD.fricElas data = vfill 0).
  { rewrite HE. replace (1 - 1) with 0 by ring. apply vscale_0. }
  split; [exact HE'|]. split.
  - rewrite HF, HE', HD. apply vec_eq; simpl; ring.
  - pose proof (dynamics_sprZeroInCache sig impl state) as HA.
    cbv zeta in HA. fold state' data in HA.
    rewrite HA, HE'. apply anchor_of_zero_elastic.
    apply (dynamics_tangent sig impl state).
Qed.

Lemma anchor_follows_when_sliding_witness :
  getElasticity (params Example.impl) <> 0 /\
  1 <= getSliding Example.displaced /\
  getSprZeroInCache
    (realizeSubsystemDynamicsImpl Example.SignificantReal Example.impl
       Example.displaced)
  = ESD.pxy (getData (realizeSubsystemDynamicsImpl Example.SignificantReal
                        Example.impl Example.displaced)).
Proof.
  assert (Hk : getElasticity (params Example.impl) <> 0) by (simpl; lra).
  assert (H : 1 <= getSliding Example.displaced) by (simpl; lra).
  split; [exact Hk|]. split; [exact H|].
  exact (proj2 (proj2
    (anchor_follows_when_sliding Example.SignificantReal Example.impl
       Example.displaced Hk H))).
Defined.

(** The example contact point evaluated with the station at rest on the
    plane at [(x, 0, 0)] and both coefficients 1/2. *)
Lemma example_evaluated (state : State) (x : Real) :
  getMuKinetic state = 1 / 2 -> getMuStatic state = 1 / 2 ->
  findStationLocationInGround state (vfill 0) = mkVec3 x 0 0 ->
  findStationVelocityInGround state (vfill 0) = vfill 0 ->
  let data :=
    getData (realizeSubsystemDynamicsImpl Example.SignificantReal
               Example.impl state) in
  ESD.pxy data = mkVec3 x 0 0 /\
  ESD.vxy data = vfill 0 /\
  ESD.fxyLimit data = 1 / 2.
Proof.
  intros Hk Hs Hloc Hvel data.
  destruct (dynamics_kinematics Example.SignificantReal Example.impl state)
    as (_ & Hpz & Hpxy & Hvz & Hvxy).
  fold data in Hpz, Hpxy, Hvz, Hvxy.
  change (station Example.impl) with (vfill 0) in *.
  change (contactPlane Example.impl) with Example.floor in *.
  unfold Example.floor in *; cbn [shiftBaseStationToFrame xformBaseVecToFrame]
    in *.
  rewrite Hloc in Hpz, Hpxy. rewrite Hvel in Hvz, Hvxy.
  cbn [e0 e1 e2 vfill vset2] in *.
  assert (Hvxy' : ESD.vxy data = vfill 0).
  { rewrite Hvxy. unfold vfill.
    destruct (Rltb (Rabs 0) Example.SignificantReal); reflexivity. }
  destruct (dynamics_normal Example.SignificantReal Example.impl state)
    as (Hel & Hda & Hfz).
  fold data in Hel, Hda, Hfz.
  change (params Example.impl) with Example.params in *.
  unfold Example.params in *;
    cbn [d0 d1 d2 getNormalViscosity] in *.
  assert (Hel' : ESD.fzElas data = 1).
  { rewrite Hel, Hpz.
    replace (- (1) * (0 - 0)) with 0 by ring. rewrite exp_0. ring. }
  assert (Hfz' : ESD.fz data = 1).
  { rewrite Hfz, Hda, Hvz, Hel'. unfold ClampAboveZero. cmp; lra. }
  destruct (dynamics_friction Example.SignificantReal Example.impl state)
    as (Hmu & Hlim & _).
  fold data in Hmu, Hlim.
  repeat split; auto.
  rewrite Hlim, Hmu, Hs, Hk, Hfz'. lra.
Qed.

Lemma anchor_holds_when_stuck_witness :
  let state := Example2.stuck in
  let state' :=
    realizeSubsystemDynamicsImpl Example.SignificantReal Example.impl state in
  let data := getData state' in
  inPlane (getSprZero state) /\
  getElasticity (params Example.impl) <> 0 /\
  getSliding state <= 0 /\
  norm (vscale (- getElasticity (params Example.impl))
          (ESD.pxy data - getSprZero state)
        + vscale (- getViscosity (params Example.impl)) (ESD.vxy data))
    <= ESD.fxyLimit data /\
  getSprZeroInCache state' = getSprZero state.
Proof.
  intros state state' data.
  assert (H1 : inPlane (getSprZero state)) by reflexivity.
  assert (H2 : getElasticity (params Example.impl) <> 0) by (simpl; lra).
  assert (H3 : getSliding state <= 0) by (simpl; lra).
  assert (Hk : getMuKinetic state = 1 / 2).
  { unfold state, Example2.stuck, Example.atRest, Example.impl, getMuKinetic,
      advance, autoUpdateDiscreteVariables, realizeSubsystemTopologyImpl,
      newExponentialSpringForceImpl; simpl.
    cmp; lra. }
  assert (Hs : getMuStatic state = 1 / 2).
  { unfold state, Example2.stuck, Example.atRest, Example.impl, getMuStatic,
      advance, autoUpdateDiscreteVariables, realizeSubsystemTopologyImpl,
      newExponentialSpringForceImpl; simpl.
    cmp; lra. }
  destruct (example_evaluated state (/ 4) Hk Hs eq_refl eq_refl)
    as (Hpxy & Hvxy & HL).
  fold state' data in Hpxy, Hvxy, HL.
  assert (H4 : norm (vscale (- getElasticity (params Example.impl))
                       (ESD.pxy data - getSprZero state)
                     + vscale (- getViscosity (params Example.impl))
                         (ESD.vxy data))
               <= ESD.fxyLimit data).
  { rewrite Hpxy, Hvxy, HL.
    replace ((vscale (- getElasticity (params Example.impl))
                (mkVec3 (/ 4) 0 0 - getSprZero state)
              + vscale (- getViscosity (params Example.impl)) (vfill 0))%V)
      with (vscale (/ 4) (mkVec3 (-1) 0 0))
      by (apply vec_eq; simpl; ring).
    rewrite norm_vscale. unfold norm, normSqr; cbn [e0 e1 e2].
    replace (-1 * -1 + 0 * 0 + 0 * 0) with 1 by ring.
    rewrite sqrt_1, Rabs_pos_eq; lra. }
  split; [exact H1|]. split; [exact H2|]. split; [exact H3|].
  split; [exact H4|].
  exact (proj2 (proj2 (proj2 (proj2
    (anchor_holds_when_stuck Example.SignificantReal Example.impl state
       H1 H2 H3 H4))))).
Defined.

(* ------------------------------------------------------------------------- *)
(** ** Setting both coefficients; constructing and cloning *)

(** X10.  Two setter calls overwrite both coefficients, whatever they were
    before, and the later call wins: static then kinetic leaves
    [muKinetic = max(b, 0)] and [muStatic = max(max(a, 0), max(b, 0))];
    kinetic then static leaves [muStatic = max(a, 0)] and
    [muKinetic = min(max(b, 0), max(a, 0))].  The two orders agree exactly
    when [max(b, 0) <= max(a, 0)]. *)
Theorem setters_last_call_wins :
  forall state a b,
    let s1 := setMuKinetic (setMuStatic state a) b in
    let s2 := setMuStatic (setMuKinetic state b) a in
    getMuKinetic s1 = Rmax b 0 /\
    getMuStatic s1 = Rmax (Rmax a 0) (Rmax b 0) /\
    getMuStatic s2 = Rmax a 0 /\
    getMuKinetic s2 = Rmin (Rmax b 0) (Rmax a 0) /\
    ((getMuStatic s1 = getMuStatic s2 /\ getMuKinetic s1 = getMuKinetic s2)
     <-> Rmax b 0 <= Rmax a 0).
Proof.
  intros state a b.
  unfold setMuKinetic, setMuStatic, getMuStatic, getMuKinetic, Rmax, Rmin.
  cmp; simpl in *; cmp; simpl in *;
    repeat destruct (Rle_dec _ _); simpl;
    repeat split; intros; try lra;
    match goal with
    | H : _ /\ _ |- _ => destruct H; lra
    end.
Qed.

(** X11.  The constructor stores [max(mus, 0)] as the static coefficient and
    [min(max(muk, 0), max(mus, 0))] as the kinetic one: unlike
    [setMuKinetic], it lowers the kinetic coefficient instead of raising the
    static one.  Cloning an implementation built by the constructor gives
    that implementation back. *)
Theorem constructor_clamps_and_clone_round_trips :
  forall floor station mus muk params data0,
    let impl :=
      newExponentialSpringForceImpl floor station mus muk params data0 in
    defaultMus impl = Rmax mus 0 /\
    defaultMuk impl = Rmin (Rmax muk 0) (Rmax mus 0) /\
    defaultSprZero impl = vfill 0 /\
    cloneImpl impl data0 = impl.
Proof.
  intros floor station mus muk params data0 impl.
  assert (H1 : defaultMus impl = Rmax mus 0).
  { unfold impl, newExponentialSpringForceImpl, Rmax; simpl.
    cmp; destruct (Rle_dec _ _); lra. }
  assert (H2 : defaultMuk impl = Rmin (Rmax muk 0) (Rmax mus 0)).
  { unfold impl, newExponentialSpringForceImpl, Rmax, Rmin; simpl.
    cmp; repeat destruct (Rle_dec _ _); lra. }
  split; [exact H1|]. split; [exact H2|]. split; [reflexivity|].
  unfold cloneImpl.
  assert (G1 : 0 <= defaultMus impl)
    by (rewrite H1; apply Rmax_r).
  assert (G2 : 0 <= defaultMuk impl <= defaultMus impl).
  { rewrite H2, H1. split.
    - apply Rmin_glb; apply Rmax_r.
    - apply Rmin_r. }
  unfold newExponentialSpringForceImpl at 1.
  cbv zeta.
  destruct (Rlt_dec (defaultMus impl) 0); [lra|].
  destruct (Rlt_dec (defaultMuk impl) 0); [lra|].
  destruct (Rgt_dec (defaultMuk impl) (defaultMus impl)); [lra|].
  reflexivity.
Qed.

(* ------------------------------------------------------------------------- *)
(** ** Sigma *)

Lemma Sigma_eq (t0 tau t : Real) :
  Sigma t0 tau t = / (1 + exp ((t - t0) / tau)).
Proof. unfold Sigma, Rdiv. ring. Qed.

(** X12.  For a time constant that is not zero, [Sigma] takes its values
    strictly between 0 and 1, is 1/2 at [t = t0], and is symmetric about
    that point: [Sigma(t0 + h) + Sigma(t0 - h) = 1]. *)
Theorem Sigma_range_and_symmetry :
  forall t0 tau,
    tau <> 0 ->
    (forall t, 0 < Sigma t0 tau t < 1) /\
    Sigma t0 tau t0 = 1 / 2 /\
    (forall h, Sigma t0 tau (t0 + h) + Sigma t0 tau (t0 - h) = 1).
Proof.
  intros t0 tau Htau. split; [|split].
  - intros t. rewrite Sigma_eq.
    pose proof (exp_pos ((t - t0) / tau)) as He.
    split.
    + apply Rinv_0_lt_compat. lra.
    + rewrite <- Rinv_1 at 2. apply Rinv_lt_contravar; lra.
  - rewrite Sigma_eq.
    replace ((t0 - t0) / tau) with 0 by (unfold Rdiv; ring).
    rewrite exp_0. lra.
  - intros h. rewrite !Sigma_eq.
    replace ((t0 + h - t0) / tau) with (h / tau) by (unfold Rdiv; ring).
    replace ((t0 - h - t0) / tau) with (- (h / tau)) by (unfold Rdiv; ring).
    rewrite exp_Ropp.
    pose proof (exp_pos (h / tau)) as He.
    field. split; lra.
Qed.

Lemma Sigma_range_and_symmetry_witness :
  1 <> 0 /\ Sigma 0 1 0 = 1 / 2.
Proof.
  assert (H : 1 <> 0) by lra.
  split; [exact H|].
  exact (proj1 (proj2 (Sigma_range_and_symmetry 0 1 H))).
Defined.

(** X13.  A positive time constant makes [Sigma] a step down (non-increasing
    in [t]); a negative one makes it a step up (non-decreasing in [t]). *)
Theorem Sigma_monotone :
  forall t0 tau ta tb,
    ta <= tb ->
    (0 < tau -> Sigma t0 tau tb <= Sigma t0 tau ta) /\
    (tau < 0 -> Sigma t0 tau ta <= Sigma t0 tau tb).
Proof.
  intros t0 tau ta tb Hle.
  assert (Hmono : forall x y, x <= y -> / (1 + exp y) <= / (1 + exp x)).
  { intros x y Hxy.
    pose proof (exp_pos x). pose proof (exp_pos y).
    apply Rinv_le_contravar; [lra|].
    destruct Hxy as [Hlt | Heq].
    - pose proof (exp_increasing x y Hlt). lra.
    - subst. lra. }
  rewrite !Sigma_eq. split; intros Htau; apply Hmono; unfold Rdiv.
  - apply Rmult_le_compat_r; [|lra].
    left. now apply Rinv_0_lt_compat.
  - assert (Hi : / tau < 0) by now apply Rinv_lt_0_compat.
    nra.
Qed.

Lemma Sigma_monotone_witness :
  0 <= 1 /\ Sigma 0 1 1 <= Sigma 0 1 0.
Proof.
  assert (H : 0 <= 1) by lra.
  split; [exact H|].
  apply (proj1 (Sigma_monotone 0 1 0 1 H)). lra.
Defined.

(* ------------------------------------------------------------------------- *)
(** ** SpringZeroRecorder *)

Lemma handleEvents_app (rec : SpringZeroRecorder)
    (es1 es2 : list (Real * State)) :
  handleEvents rec (es1 ++ es2) = handleEvents (handleEvents rec es1) es2.
Proof. unfold handleEvents. apply fold_left_app. Qed.

(** X14.  The recorder reports a speed of 0 until two events have been
    handled.  After two or more events it holds the times and spring zeros
    of the last two only, and reports the distance between those two spring
    zeros divided by the time between the two events, which is not negative
    when the later event has the later time. *)
Theorem recorder_speed :
  forall p0 p1,
    let rec0 := newSpringZeroRecorder p0 p1 in
    getSpeed rec0 = 0 /\
    (forall t state, getSpeed (handleEvent rec0 t state) = 0) /\
    (forall events ta sa tb sb,
        let rec := handleEvents rec0 (events ++ [(ta, sa); (tb, sb)]) in
        rec = mkRecorder (Some ta) (Some tb) (getSprZero sa) (getSprZero sb)
        /\
        getSpeed rec = norm (getSprZero sb - getSprZero sa) / (tb - ta) /\
        (ta < tb -> 0 <= getSpeed rec)).
Proof.
  intros p0 p1 rec0.
  split; [reflexivity|]. split; [reflexivity|].
  intros events ta sa tb sb rec.
  assert (Hrec : rec = mkRecorder (Some ta) (Some tb) (getSprZero sa)
                         (getSprZero sb)).
  { unfold rec. rewrite handleEvents_app. reflexivity. }
  split; [exact Hrec|].
  assert (Hsp : getSpeed rec
                = norm (getSprZero sb - getSprZero sa) / (tb - ta))
    by (rewrite Hrec; reflexivity).
  split; [exact Hsp|].
  intros Hlt. rewrite Hsp. unfold Rdiv.
  apply Rmult_le_pos; [apply norm_nonneg|].
  left. apply Rinv_0_lt_compat. lra.
Qed.

(* ------------------------------------------------------------------------- *)
(** ** The force accessors *)

Lemma frictionLimit_inPlane (sig : Real) (fricDampSpr : Vec3)
    (fxyLimit : Real) :
  inPlane fricDampSpr -> inPlane (frictionLimit sig fricDampSpr fxyLimit).
Proof.
  unfold inPlane. intros H.
  destruct (frictionLimit_cases sig fricDampSpr fxyLimit)
    as [[_ E] | [(_ & _ & E) | (_ & _ & E)]]; rewrite E; simpl; auto.
  rewrite H. ring.
Qed.

Lemma frictionSpring_damping_inPlane (kpFric : Real)
    (pxy p0 fricDampSpr : Vec3) (fxyLimit : Real) :
  inPlane fricDampSpr ->
  inPlane (snd (fst (frictionSpring kpFric pxy p0 fricDampSpr fxyLimit))).
Proof.
  unfold inPlane. intros H.
  destruct (frictionSpring_cases kpFric pxy p0 fricDampSpr fxyLimit)
    as [[_ E] | [_ E]]; rewrite E; simpl; auto.
  rewrite H. ring.
Qed.

Lemma dynamics_fric_inPlane (sig : Real) (impl : ExponentialSpringForceImpl)
    (state : State) :
  inPlane (getSprZero state) ->
  inPlane (ESD.fric (getData (realizeSubsystemDynamicsImpl sig impl state))).
Proof.
  intros Hp0.
  pose proof (dynamics_fricElas_inPlane sig impl state Hp0) as HE.
  destruct (dynamics_friction sig impl state) as (_ & _ & _ & _ & _ & HD & HF).
  destruct (dynamics_tangent sig impl state) as [_ Hvxy].
  set (data := getData (realizeSubsystemDynamicsImpl sig impl state)) in *.
  assert (Hfd : inPlane (vscale (- getViscosity (params impl)) (ESD.vxy data))).
  { unfold inPlane in *. simpl. rewrite Hvxy. ring. }
  pose proof (frictionLimit_inPlane sig _ (ESD.fxyLimit data) Hfd) as HLim.
  pose proof (frictionSpring_damping_inPlane (getElasticity (params impl))
                (ESD.pxy data) (getSprZero state) _ (ESD.fxyLimit data) Hfd)
    as HSpr.
  unfold inPlane in *. rewrite HF. simpl. rewrite HE, HD. simpl.
  rewrite HLim, HSpr. ring.
Qed.

(** X15.  After a force evaluation the accessors fit together: the friction
    force is the sum of its elastic and damping parts; the resultant in the
    ground frame is the transform of the resultant in the plane frame; and,
    the spring zero lying in the contact plane, the resultant in the plane
    frame is the sum of the friction force and the normal force, the
    friction force having no normal component. *)
Theorem force_accessors_compose :
  forall sig impl state,
    inPlane (getSprZero state) ->
    let state' := realizeSubsystemDynamicsImpl sig impl state in
    getFrictionForce impl state' false
      = (getFrictionForceElasticPart impl state' false
         + getFrictionForceDampingPart impl state' false)%V /\
    getForce state' true
      = xformFrameVecToBase (contactPlane impl) (getForce state' false) /\
    inPlane (getFrictionForce impl state' false) /\
    getForce state' false
      = (getFrictionForce impl state' false
         + getNormalForce impl state' false)%V.
Proof.
  intros sig impl state Hp0 state'.
  destruct (dynamics_friction sig impl state) as (_ & _ & _ & _ & _ & _ & HF).
  destruct (dynamics_resultant sig impl state) as (_ & _ & _ & Hf & HfG).
  pose proof (dynamics_fric_inPlane sig impl state Hp0) as Hin.
  fold state' in HF, Hf, HfG, Hin.
  unfold getFrictionForce, getFrictionForceElasticPart,
    getFrictionForceDampingPart, getForce, getNormalForce.
  split; [exact HF|]. split; [exact HfG|]. split; [exact Hin|].
  rewrite Hf. unfold inPlane in Hin.
  apply vec_eq; simpl; try ring. rewrite Hin. ring.
Qed.

Lemma force_accessors_compose_witness :
  inPlane (getSprZero Example.atRest) /\
  let state' :=
    realizeSubsystemDynamicsImpl Example.SignificantReal Example.impl
      Example.atRest in
  getForce state' false
  = (getFrictionForce Example.impl state' false
     + getNormalForce Example.impl state' false)%V.
Proof.
  assert (H : inPlane (getSprZero Example.atRest)) by reflexivity.
  split; [exact H|].
  exact (proj2 (proj2 (proj2
    (force_accessors_compose Example.SignificantReal Example.impl
       Example.atRest H)))).
Defined.

(* ------------------------------------------------------------------------- *)
(** ** Shape of the normal force *)



(** X17.  When the sum of the elastic and damping parts lies within the
    bounds [[0, 100000]] the normal force is not clamped: it is
    [fzElas * (1 - kvNormal * vz)], and the normal-force accessor returns the
    sum of the elastic-part and damping-part accessors. *)
Theorem normal_force_unclamped :
  forall sig impl state,
    let state' := realizeSubsystemDynamicsImpl sig impl state in
    let data := getData state' in
    0 <= ESD.fzElas data + ESD.fzDamp data <= 100000 ->
    ESD.fz data
      = ESD.fzElas data
        * (1 - getNormalViscosity (params impl) * ESD.vz data) /\
    getNormalForce impl state' false
      = (getNormalForceElasticPart impl state' false
         + getNormalForceDampingPart impl state' false)%V.
Proof.
  intros sig impl state state' data [Hlo Hhi].
  destruct (dynamics_normal sig impl state) as (_ & Hda & Hfz).
  fold state' data in Hda, Hfz.
  assert (Hsum : ESD.fz data = ESD.fzElas data + ESD.fzDamp data).
  { rewrite Hfz. unfold ClampAboveZero. cmp; lra. }
  split.
  - rewrite Hsum, Hda. ring.
  - unfold getNormalForce, getNormalForceElasticPart,
      getNormalForceDampingPart. fold data.
    apply vec_eq; simpl; try ring. exact Hsum.
Qed.

Lemma normal_force_unclamped_witness :
  let state' :=
    realizeSubsystemDynamicsImpl Example.SignificantReal Example.impl
      Example.atRest in
  let data := getData state' in
  0 <= ESD.fzElas data + ESD.fzDamp data <= 100000 /\
  getNormalForce Example.impl state' false
  = (getNormalForceElasticPart Example.impl state' false
     + getNormalForceDampingPart Example.impl state' false)%V.
Proof.
  intros state' data.
  assert (H : 0 <= ESD.fzElas data + ESD.fzDamp data <= 100000).
  { destruct (dynamics_kinematics Example.SignificantReal Example.impl
                Example.atRest) as (_ & Hpz & _ & Hvz & _).
    destruct (dynamics_normal Example.SignificantReal Example.impl
                Example.atRest) as (Hel & Hda & _).
    fold state' data in Hpz, Hvz, Hel, Hda.
    assert (Hel' : ESD.fzElas data = 1).
    { rewrite Hel, Hpz. simpl.
      replace (- (1) * (0 - 0)) with 0 by ring. rewrite exp_0. ring. }
    rewrite Hda, Hvz, Hel'. simpl. lra. }
  split; [exact H|].
  exact (proj2 (normal_force_unclamped Example.SignificantReal Example.impl
                  Example.atRest H)).
Defined.

(* ------------------------------------------------------------------------- *)
(** ** Saturation as a continuous cap *)

(** X18.  The two branches of the saturation test fit together without a
    jump: whenever the spring candidate [fricElasSpr + fricDampSpr] is not
    the zero vector and the friction limit is not negative, both of its
    parts come out scaled by [min(1, fxyLimit / |fricSpr|)], and
    [limitReached] tells whether that factor is below 1. *)
Theorem saturation_is_a_continuous_cap :
  forall kpFric pxy p0 fricDampSpr fxyLimit,
    0 <= fxyLimit ->
    let fricElasSpr := vscale (- kpFric) (pxy - p0) in
    let fxySpr := norm (fricElasSpr + fricDampSpr) in
    0 < fxySpr ->
    let cap := Rmin 1 (fxyLimit / fxySpr) in
    let spring := frictionSpring kpFric pxy p0 fricDampSpr fxyLimit in
    snd (fst (fst spring)) = vscale cap fricElasSpr /\
    snd (fst spring) = vscale cap fricDampSpr /\
    snd spring = vscale cap (fricElasSpr + fricDampSpr) /\
    (fst (fst (fst spring)) = true <-> cap < 1) /\
    norm (snd spring) = Rmin fxySpr fxyLimit.
Proof.
  intros kpFric pxy p0 fricDampSpr fxyLimit HL fricElasSpr fxySpr Hpos
    cap spring.
  assert (Hi : 0 < / fxySpr) by now apply Rinv_0_lt_compat.
  destruct (frictionSpring_cases kpFric pxy p0 fricDampSpr fxyLimit)
    as [[Hgt E] | [Hle E]]; fold fricElasSpr fxySpr in Hgt || fold
    fricElasSpr fxySpr in Hle; fold fricElasSpr fxySpr spring in E;
    rewrite E; simpl.
  - assert (Hlt : fxyLimit / fxySpr < 1).
    { apply (Rmult_lt_reg_r fxySpr); [exact Hpos|].
      unfold Rdiv. rewrite Rmult_assoc, Rinv_l by lra. lra. }
    assert (Hcap : cap = fxyLimit / fxySpr)
      by (unfold cap; apply Rmin_right; lra).
    rewrite Hcap. repeat split; auto.
    + rewrite vscale_vadd. reflexivity.
    + rewrite <- vscale_vadd. fold fricElasSpr.
      unfold fxySpr at 1. rewrite norm_capped by assumption.
      symmetry. apply Rmin_right. lra.
  - assert (Hge : 1 <= fxyLimit / fxySpr).
    { apply (Rmult_le_reg_r fxySpr); [exact Hpos|].
      unfold Rdiv. rewrite Rmult_assoc, Rinv_l by lra. lra. }
    assert (Hcap : cap = 1) by (unfold cap; apply Rmin_left; exact Hge).
    rewrite Hcap, !vscale_1. repeat split; auto.
    + intros H; discriminate.
    + intros H; lra.
    + fold fxySpr. symmetry. apply Rmin_left. exact Hle.
Qed.

Lemma saturation_is_a_continuous_cap_witness :
  0 <= 1 / 2 /\
  0 < norm (vscale (- (1)) (mkVec3 1 0 0 - vfill 0) + vfill 0) /\
  norm (snd (frictionSpring 1 (mkVec3 1 0 0) (vfill 0) (vfill 0) (1 / 2)))
  = Rmin (norm (vscale (- (1)) (mkVec3 1 0 0 - vfill 0) + vfill 0)) (1 / 2).
Proof.
  assert (H1 : 0 <= 1 / 2) by lra.
  assert (H2 : 0 < norm (vscale (- (1)) (mkVec3 1 0 0 - vfill 0) + vfill 0)).
  { replace (vscale (- (1)) (mkVec3 1 0 0 - vfill 0) + vfill 0)%V
      with (mkVec3 (-1) 0 0) by (apply vec_eq; simpl; ring).
    unfold norm, normSqr; cbn [e0 e1 e2].
    replace (-1 * -1 + 0 * 0 + 0 * 0) with 1 by ring.
    rewrite sqrt_1. lra. }
  split; [exact H1|]. split; [exact H2|].
  exact (proj2 (proj2 (proj2 (proj2
    (saturation_is_a_continuous_cap 1 (mkVec3 1 0 0) (vfill 0) (vfill 0)
       (1 / 2) H1 H2))))).
Defined.

(* ------------------------------------------------------------------------- *)
(** ** The spring zero stays in the contact plane *)

(** X19.  From construction and topology realization on, through any
    sequence of calls (setting a coefficient, resetting the spring zero,
    realizing the dynamics or the acceleration stage, a step of the
    integrator with its auto-update of the spring zero), the spring zero
    held in the state has no normal component, and neither has a realized
    update value. *)
Theorem spring_zero_stays_in_plane :
  forall sig floor station mus muk params data0 state0 cs,
    let impl :=
      newExponentialSpringForceImpl floor station mus muk params data0 in
    let state :=
      calls sig impl (realizeSubsystemTopologyImpl impl state0) cs in
    inPlane (getSprZero state) /\
    (st_sprZeroCacheRealized state = true ->
     inPlane (getSprZeroInCache state)).
Proof.
  intros sig floor station mus muk params data0 state0 cs impl state.
  assert (H : StateInv state)
    by (apply calls_inv, topology_inv, newImpl_inv).
  destruct H as [_ H]. exact H.
Qed.

(* ------------------------------------------------------------------------- *)
(** ** Scalar and kinematic accessors *)

(** X20.  After a force evaluation the friction limit reported is the
    reported coefficient times the normal component of the reported normal
    force; the station position in the plane frame is the position the
    evaluation used; and the station velocity in the plane frame has the
    normal velocity the evaluation used, but its tangential components are
    the raw ones, not the ones the evaluation snapped to zero. *)
Theorem accessors_match_evaluation :
  forall sig impl state,
    let state' := realizeSubsystemDynamicsImpl sig impl state in
    let data := getData state' in
    getFrictionForceLimit state'
      = getMu state' * e2 (getNormalForce impl state' false) /\
    getStationPosition impl state' false = ESD.p data /\
    getStationPosition impl state' true = ESD.p_G data /\
    getStationVelocity impl state' true = ESD.v_G data /\
    e2 (getStationVelocity impl state' false) = ESD.vz data /\
    ESD.vxy data
      = (let w := getStationVelocity impl state' false in
         mkVec3 (if Rltb (Rabs (e0 w)) sig then 0 else e0 w)
           (if Rltb (Rabs (e1 w)) sig then 0 else e1 w) 0).
Proof.
  intros sig impl state state' data.
  destruct (dynamics_friction sig impl state) as (_ & Hlim & _).
  destruct (dynamics_kinematics sig impl state) as (Hp & _ & _ & Hvz & Hvxy).
  destruct (dynamics_resultant sig impl state) as (HpG & HvG & _).
  destruct (dynamics_kinematics_frame sig impl state) as (K1 & K2 & _).
  fold state' data in Hlim, Hp, Hvz, Hvxy, HpG, HvG, K1, K2.
  unfold getFrictionForceLimit, getMu, getNormalForce, getStationPosition,
    getStationVelocity. fold data. cbv zeta. rewrite K1, K2.
  repeat split; auto.
Qed.
